(** * Volunteer Hub (app.py): a shallow embedding and its properties

    The Streamlit script [app.py] loads volunteer opportunities from a JSON
    file, derives the view state from the URL query parameters and renders
    either a paginated 3x3 card grid or a detail view.

    The embedding follows the script top to bottom:
    - Python values, exceptions and the few builtins the script calls
      ([int], [str], slicing, [len], [html.escape], [/] and [math.ceil]);
    - the Streamlit calls as a small state-and-exception monad over the
      emitted widgets and the query-parameter store;
    - the script itself ([Opportunity.from_dict], [load_opportunities],
      [total_pages], [qp_get], [current_page], the two views);
    - what the browser does with the output between two runs (it displays
      escaped text, it follows a link), as far as the properties speak
      of it.

    The properties follow: the page count and the partition of the records
    into pages, the resolution and correction of the requested page, the
    cards of the grid and their escaping, the loading of a record, the
    detail view with its way back to the list. *)

From Stdlib Require Import ZArith Lia List Ascii String DecimalString.
From Stdlib Require Import Floats.SpecFloat.
From stdpp Require Import base option list.

Local Open Scope Z_scope.

#[local] Set Warnings "-register-all,-clear-no-such-hyp".

(** ** Python strings

    A [str] is a sequence of Unicode code points; [len] and slicing count
    code points, so a character is a number and not a byte. *)

Abbreviation str := (list N).

(** An ASCII literal of the script. *)
Definition lit (s : string) : str :=
  (fun a => N_of_ascii a) <$> list_ascii_of_string s.
Arguments lit s%_string.

(** [str(n)] for an [int]. *)
Definition str_of_Z (n : Z) : str := lit (NilZero.string_of_int (Z.to_int n)).

(** ** Python values and exceptions *)

(** What [json.load] can return; a [dict] is kept as its item list in
    insertion order (keys pairwise distinct). *)
Inductive pyval : Type :=
  | PNone
  | PBool (b : bool)
  | PInt (n : Z)
  | PFloat (f : spec_float)
  | PStr (s : str)
  | PList (l : list pyval)
  | PDict (items : list (str * pyval)).

Inductive exn : Type :=
  | KeyError (key : str)
  | TypeError
  | AttributeError
  | ValueError
  | OverflowError
  | ZeroDivisionError
  | RecursionError
  | OSError.

Inductive exc (A : Type) : Type :=
  | Ok (a : A)
  | Raise (e : exn).
Arguments Ok {A} a.
Arguments Raise {A} e.

#[export] Instance exc_ret : MRet exc := fun A a => Ok a.
#[export] Instance exc_bind : MBind exc :=
  fun A B f m => match m with Ok a => f a | Raise e => Raise e end.

(** [try: body  except Exception: handler]. *)
Definition try_except {A} (body : exc A) (handler : exn -> exc A) : exc A :=
  match body with
  | Ok a => Ok a
  | Raise e => handler e
  end.

(** The builtins whose full definition lies outside the script: [int(s)] on
    a [str] (sign, digits, underscores, surrounding blanks, any Unicode
    decimal digit; [ValueError] otherwise) and [str(v)] on a value that is
    not a string. *)
Class Builtins : Type := {
  py_int : str -> exc Z;
  py_str : pyval -> str;
}.

(** [format(v, "")], as an f-string field [{v}] computes it. *)
Definition format_value `{Builtins} (v : pyval) : str :=
  match v with
  | PStr s => s
  | _ => py_str v
  end.

(** *** Sequences *)

(** A slice bound [i] of a sequence of length [n], as [PySlice_AdjustIndices]
    clips it. *)
Definition slice_index (n i : Z) : Z :=
  if i <? 0 then Z.max 0 (i + n) else Z.min i n.

(** [l[i:j]]. *)
Definition py_slice {A} (l : list A) (i j : Z) : list A :=
  let n := Z.of_nat (length l) in
  let lo := slice_index n i in
  let hi := slice_index n j in
  take (Z.to_nat (hi - lo)) (drop (Z.to_nat lo) l).

(** [len(l)]. *)
Definition len {A} (l : list A) : Z := Z.of_nat (length l).

(** [v[:j]] on a value: strings and lists can be sliced ([dict] rejects a
    slice as a key, the other types are not subscriptable). *)
Definition getitem_upto (v : pyval) (j : Z) : exc pyval :=
  match v with
  | PStr s => Ok (PStr (py_slice s 0 j))
  | PList l => Ok (PList (py_slice l 0 j))
  | _ => Raise TypeError
  end.

(** [len(v)] on a value. *)
Definition py_len (v : pyval) : exc Z :=
  match v with
  | PStr s => Ok (len s)
  | PList l => Ok (len l)
  | PDict items => Ok (len items)
  | _ => Raise TypeError
  end.

(** [for x in v]: the items a loop over [v] visits. *)
Definition py_iter (v : pyval) : exc (list pyval) :=
  match v with
  | PList l => Ok l
  | PStr s => Ok ((fun c => PStr [c]) <$> s)
  | PDict items => Ok ((fun kv => PStr kv.1) <$> items)
  | _ => Raise TypeError
  end.

(** [v == s] for a string [s]. *)
Definition py_eq_str (v : pyval) (s : str) : bool :=
  match v with
  | PStr t => bool_decide (t = s)
  | _ => false
  end.

(** *** Dictionaries *)

Definition dict_lookup (k : str) (items : list (str * pyval)) : option pyval :=
  snd <$> find (fun kv => bool_decide (kv.1 = k)) items.

(** [d[k]]. *)
Definition getitem (d : pyval) (k : str) : exc pyval :=
  match d with
  | PDict items =>
      match dict_lookup k items with
      | Some v => Ok v
      | None => Raise (KeyError k)
      end
  | _ => Raise TypeError
  end.

(** [d.get(k, default)]. *)
Definition dict_get (d : pyval) (k : str) (fallback : pyval) : exc pyval :=
  match d with
  | PDict items => Ok (default fallback (dict_lookup k items))
  | _ => Raise AttributeError
  end.

(** *** [html.escape]

    [s.replace(c, r)] for a one-character [c], and the five replacements of
    [html.escape(s, quote=True)] in the order the library applies them. *)

Definition replace_char (c : N) (r : str) (s : str) : str :=
  concat ((fun x => if (x =? c)%N then r else [x]) <$> s).

Definition html_escape (s : str) : str :=
  let s := replace_char 38 (lit "&amp;") s in
  let s := replace_char 60 (lit "&lt;") s in
  let s := replace_char 62 (lit "&gt;") s in
  let s := replace_char 34 (lit "&quot;") s in
  replace_char 39 (lit "&#x27;") s.

(** [html.escape(v)] on a value: only a [str] has [replace]. *)
Definition html_escape_value (v : pyval) : exc str :=
  match v with
  | PStr s => Ok (html_escape s)
  | _ => Raise AttributeError
  end.

(** What the five replacements amount to on one character. *)
Definition escape_char (c : N) : str :=
  if (c =? 38)%N then lit "&amp;"
  else if (c =? 60)%N then lit "&lt;"
  else if (c =? 62)%N then lit "&gt;"
  else if (c =? 34)%N then lit "&quot;"
  else if (c =? 39)%N then lit "&#x27;"
  else [c].

(** *** True division and [math.ceil]

    [a / b] on two [int]s is the IEEE-754 binary64 number nearest to the
    exact quotient (ties to even): [SFdiv] at precision 53 on the two
    integers taken as exact mantissas. *)

Definition float_of_int (a : Z) : spec_float :=
  match a with
  | Z0 => S754_zero false
  | Zpos p => S754_finite false p 0
  | Zneg p => S754_finite true p 0
  end.

Definition true_div (a b : Z) : exc spec_float :=
  if b =? 0 then Raise ZeroDivisionError
  else
    match SFdiv 53 1024 (float_of_int a) (float_of_int b) with
    | S754_infinity _ => Raise OverflowError
    | x => Ok x
    end.

Definition math_ceil (x : spec_float) : exc Z :=
  match x with
  | S754_zero _ => Ok 0
  | S754_finite s m e =>
      let v := cond_Zopp s (Zpos m) in
      Ok (if 0 <=? e then v * 2 ^ e else - ((- v) / 2 ^ (- e)))
  | S754_infinity _ => Raise OverflowError
  | S754_nan => Raise ValueError
  end.

(** The ceiling of the exact quotient [a / b], for comparison. *)
Definition ceil_div (a b : Z) : Z := - ((- a) / b).

(** ** Streamlit

    A run of the script emits widgets in order and may replace the query
    parameters of the URL; it ends normally, with an uncaught exception, or
    with the rerun request of [st.rerun()]. *)

Abbreviation params := (list (str * str)).

Inductive widget : Type :=
  | PageConfig (page_title layout : str)
  | Title (body : str)
  | Write (body : str)
  | Error (body : str)
  | Header (body : pyval)
  | Markdown (body : pyval) (unsafe_allow_html : bool)
  | Button (label : str).

Record state : Type := State {
  ui : list widget;
  query_params : params;
}.

Inductive signal : Type :=
  | Uncaught (e : exn)
  | RerunException.

Inductive result (A : Type) : Type :=
  | Done (a : A)
  | Stopped (sig : signal).
Arguments Done {A} a.
Arguments Stopped {A} sig.

Definition script (A : Type) : Type := state -> result A * state.

#[export] Instance script_ret : MRet script := fun A a s => (Done a, s).
#[export] Instance script_bind : MBind script :=
  fun A B f m s =>
    match m s with
    | (Done a, s') => f a s'
    | (Stopped sig, s') => (Stopped sig, s')
    end.

Definition lift {A} (e : exc A) : script A :=
  fun s => (match e with Ok a => Done a | Raise x => Stopped (Uncaught x) end, s).

Definition emit (w : widget) : script unit :=
  fun s => (Done (), State (ui s ++ [w]) (query_params s)).

Definition st_set_page_config (page_title layout : str) : script unit :=
  emit (PageConfig page_title layout).
Definition st_title (body : str) : script unit := emit (Title body).
Definition st_write (body : str) : script unit := emit (Write body).
Definition st_error (body : str) : script unit := emit (Error body).
Definition st_header (body : pyval) : script unit := emit (Header body).
Definition st_markdown (body : pyval) (unsafe_allow_html : bool) : script unit :=
  emit (Markdown body unsafe_allow_html).

(** [st.button(label)] draws the button and tells whether this run was
    triggered by a click on it. *)
Definition st_button (label : str) (clicked : bool) : script bool :=
  emit (Button label);; mret clicked.

Definition st_rerun {A} : script A := fun s => (Stopped RerunException, s).

(** [st.query_params]: reading it, the values of a key in URL order,
    [get_all] (which returns them all), [get] (which returns the last one,
    a [str], or [None]) and the two mutators the script uses. *)
Definition st_query_params : script params := fun s => (Done (query_params s), s).

Definition values (q : params) (name : str) : list str :=
  omap (fun kv => if bool_decide (kv.1 = name) then Some kv.2 else None) q.

Definition get_all (q : params) (name : str) : exc (list str) := Ok (values q name).

Definition get (q : params) (name : str) : option str := last (values q name).

Definition query_params_clear : script unit :=
  fun s => (Done (), State (ui s) []).

Definition query_params_from_dict (d : params) : script unit :=
  fun s => (Done (), State (ui s) d).

(** ** The script *)

(** The dataclass (its annotations are not enforced: a field holds whatever
    the JSON object holds) and its [from_dict]. *)
Module Opportunity.

Record t : Type := Build {
  id : pyval;
  title : pyval;
  description : pyval;
  organization_url : pyval;
  location : pyval;
  timeframe : pyval;
  requirements : pyval;
}.

Definition from_dict (d : pyval) : exc t :=
  id ← getitem d (lit "id");
  title ← dict_get d (lit "title") (PStr []);
  description ← dict_get d (lit "description") (PStr []);
  organization_url ← dict_get d (lit "organization_url") (PStr []);
  location ← dict_get d (lit "location") (PStr []);
  timeframe ← dict_get d (lit "timeframe") (PStr []);
  requirements ← dict_get d (lit "requirements") (PList []);
  mret (Build id title description organization_url location timeframe requirements).

End Opportunity.

(** A record whose fields have the annotated types. *)
Definition typed_record (id title description organization_url location timeframe : str)
    (requirements : list str) : Opportunity.t :=
  Opportunity.Build (PStr id) (PStr title) (PStr description) (PStr organization_url)
    (PStr location) (PStr timeframe) (PList (PStr <$> requirements)).

(** What lines 48-52 make of the data file. Either [os.path.exists] says
    no; or [open] or [json.load] raises ([OSError] for a file that cannot
    be opened or read, [ValueError] for bytes that are not UTF-8 or text
    that is not JSON, [RecursionError] for JSON nested deeper than the
    interpreter can follow); or [json.load] returns a value. *)
Inductive data_file : Type :=
  | NoFile
  | LoadRaises (e : exn)
  | Json (raw : pyval).

Definition load_opportunities (path : str) (f : data_file) : script (list Opportunity.t) :=
  match f with
  | NoFile => st_error (lit "Data file not found: " ++ path);; mret []
  | LoadRaises e => lift (Raise e)
  | Json raw =>
      rs ← lift (py_iter raw);
      lift (mapM Opportunity.from_dict rs)
  end.

Definition PAGE_SIZE : Z := 9.

Definition total_pages (total : Z) : exc Z :=
  q ← true_div total PAGE_SIZE;
  c ← math_ceil q;
  mret (Z.max 1 c).

(** [if s:] on an optional string. *)
Definition truthy (s : option str) : bool :=
  match s with
  | Some (_ :: _) => true
  | _ => false
  end.

(** The [try] block returns [vals[0]] when [vals] is not empty; otherwise,
    or after an exception, the function goes on with [get] (whose result is
    never a list) and returns [v or default]. *)
Definition qp_get (q : params) (name : str) (fallback : option str) : option str :=
  let returned :=
    try_except (vals ← get_all q name; mret (head vals)) (fun _ => Ok None) in
  match returned with
  | Ok (Some first) => Some first
  | _ =>
      let v := get q name in
      if truthy v then v else fallback
  end.

(** Lines 77-80: the requested page. *)
Definition parse_page `{Builtins} (page_param : option str) : exc Z :=
  try_except
    (match page_param with
     | Some s => py_int s
     | None => Ok 1
     end)
    (fun _ => Ok 1).

(** Line 81: the page shown. *)
Definition current_page (total_pages page : Z) : Z :=
  Z.max 1 (Z.min total_pages page).

Definition page_items (ops : list Opportunity.t) (current_page : Z) : list Opportunity.t :=
  let start := (current_page - 1) * PAGE_SIZE in
  py_slice ops start (start + PAGE_SIZE).

Definition join_lines (ls : list str) : str :=
  match ls with
  | [] => []
  | l :: ls => l ++ concat ((fun x => 10%N :: x) <$> ls)
  end.

Definition css : str :=
  join_lines [
    lit "";
    lit "    <style>";
    lit "    a {";
    lit "    color: inherit !important;";
    lit "    text-decoration: none !important;";
    lit "    }";
    lit "    .vol-grid{display:grid;grid-template-columns:repeat(3,1fr);gap:20px;padding:0;margin:0}";
    lit "    .vol-card{border:1px solid #e0e0e0;border-radius:10px;padding:16px;min-height:140px;display:flex;flex-direction:column;justify-content:space-between;text-decoration:none;color:inherit;background-color:var(--bg-color)}";
    lit "    .vol-card h3{margin:0 0 8px 0;font-size:1.05rem}";
    lit "    .vol-card p{margin:0 0 12px 0;color:var(--secondary-text-color)}";
    lit "    .vol-meta{font-size:0.85rem;color:var(--secondary-text-color)}";
    lit "    .pagination{display:flex;justify-content:center;gap:8px;margin-top:18px}";
    lit "    .page-num{padding:6px 10px;border-radius:6px;border:1px solid #cfcfcf;text-decoration:none;color:inherit}";
    lit "    .page-num.active{background:#0d6efd;color:white;border-color:#0d6efd}";
    lit "    </style>";
    lit "    "
  ].

Definition short_desc (description : pyval) : exc str :=
  cut ← getitem_upto description 120;
  escaped ← html_escape_value cut;
  n ← py_len description;
  mret (escaped ++ (if 120 <? n then lit "..." else [])).

Definition card `{Builtins} (op : Opportunity.t) (current_page : Z) : exc str :=
  short_desc ← short_desc (Opportunity.description op);
  let id := format_value (Opportunity.id op) in
  title ← html_escape_value (Opportunity.title op);
  location ← html_escape_value (Opportunity.location op);
  timeframe ← html_escape_value (Opportunity.timeframe op);
  mret (lit "<a class='vol-card' href='?id=" ++ id ++ lit "&page="
          ++ str_of_Z current_page ++ lit "'>"
        ++ lit "<h3>" ++ title ++ lit "</h3>"
        ++ lit "<p>" ++ short_desc ++ lit "</p>"
        ++ lit "<div class='vol-meta'>" ++ location ++ [32; 8226; 32]%N
          ++ timeframe ++ lit "</div>"
        ++ lit "</a>").

Definition cards `{Builtins} (page_items : list Opportunity.t) (current_page : Z)
    : exc (list str) :=
  cs ← mapM (fun op => card op current_page) page_items;
  mret ([css; lit "<div class='vol-grid'>"] ++ cs ++ [lit "</div>"]).

Definition footer (total_pages current_page : Z) : list str :=
  [lit "<div class='pagination'>"]
  ++ ((fun p =>
         let cls := if p =? current_page then lit "page-num active" else lit "page-num" in
         lit "<a class='" ++ cls ++ lit "' href='?page=" ++ str_of_Z p ++ lit "'>"
           ++ str_of_Z p ++ lit "</a>") <$> seqZ 1 total_pages)
  ++ [lit "</div>"].

Definition grid_view `{Builtins} (ops : list Opportunity.t) (total_pages current_page : Z)
    : script unit :=
  cards ← lift (cards (page_items ops current_page) current_page);
  st_markdown (PStr (concat cards)) true;;
  st_markdown (PStr (concat (footer total_pages current_page))) true.

(** Lines 91-94 and 105-108. *)
Definition back_to_list (current_page : Z) (clicked : bool) : script unit :=
  pressed ← st_button (lit "Back to list") clicked;
  if pressed : bool then
    query_params_clear;;
    query_params_from_dict [(lit "page", str_of_Z current_page)];;
    st_rerun
  else mret ().

Definition detail_view `{Builtins} (ops : list Opportunity.t) (selected_id : str)
    (current_page : Z) (clicked : bool) : script unit :=
  match find (fun o => py_eq_str (Opportunity.id o) selected_id) ops with
  | None =>
      st_error (lit "Opportunity not found.");;
      back_to_list current_page clicked
  | Some op =>
      st_header (Opportunity.title op);;
      st_markdown (Opportunity.description op) false;;
      st_markdown
        (PStr (lit "**Organization:** [" ++ format_value (Opportunity.organization_url op)
               ++ lit "](" ++ format_value (Opportunity.organization_url op) ++ lit ")"))
        false;;
      st_write (lit "**Location:** " ++ format_value (Opportunity.location op));;
      st_write (lit "**Timeframe:** " ++ format_value (Opportunity.timeframe op));;
      st_write (lit "**Requirements:**");;
      reqs ← lift (py_iter (Opportunity.requirements op));
      mapM (fun req => st_write (lit "- " ++ format_value req)) reqs;;
      back_to_list current_page clicked
  end.

(** Lines 57-151: the run once the records are loaded. *)
Definition main `{Builtins} (ops : list Opportunity.t) (clicked : bool) : script unit :=
  total_pages ← lift (total_pages (len ops));
  q ← st_query_params;
  let selected_id := qp_get q (lit "id") None in
  let page_param := qp_get q (lit "page") None in
  page ← lift (parse_page page_param);
  let current_page := current_page total_pages page in
  st_title (lit "Volunteer Hub");;
  st_write (lit "Find volunteering opportunities " ++ [8212%N]
            ++ lit " click a card to view details.");;
  match selected_id with
  | Some (c :: sid) => detail_view ops (c :: sid) current_page clicked
  | _ => grid_view ops total_pages current_page
  end.

Definition app `{Builtins} (path : str) (f : data_file) (clicked : bool) : script unit :=
  st_set_page_config (lit "Volunteer Hub") (lit "wide");;
  ops ← load_opportunities path f;
  main ops clicked.

(** A run starts with an empty page and the query parameters of the URL. *)
Definition start (q : params) : state := State [] q.

(** ** A reference instance of the builtins

    [int] on ASCII strings: the blanks space, tab, line feed, vertical
    tab, form feed and carriage return around, an optional sign, at most
    4300 decimal digits with single underscores between them. A string
    with a character outside ASCII is rejected here, where Python also
    reads the blanks and decimal digits of other scripts. [str] on [None],
    booleans, integers and strings; what Python prints for a float, a list
    or an object is not spelled out, the instance gives the empty string
    there. The instance serves the examples, none of which leaves these
    ranges; the properties hold for every instance. *)

Definition is_digit (c : N) : bool := ((48 <=? c) && (c <=? 57))%N.

Definition is_space (c : N) : bool :=
  ((c =? 32) || ((9 <=? c) && (c <=? 13)))%N.

Fixpoint lstrip (s : str) : str :=
  match s with
  | c :: rest => if is_space c then lstrip rest else s
  | [] => []
  end.

Definition strip (s : str) : str := reverse (lstrip (reverse (lstrip s))).

Fixpoint digits_value (acc : Z) (s : str) : option Z :=
  match s with
  | [] => Some acc
  | c :: rest =>
      if is_digit c then digits_value (acc * 10 + (Z.of_N c - 48)) rest
      else if (c =? 95)%N then
        match rest with
        | d :: _ => if is_digit d then digits_value acc rest else None
        | [] => None
        end
      else None
  end.

Definition unsigned_value (s : str) : option Z :=
  match s with
  | c :: _ => if is_digit c then digits_value 0 s else None
  | [] => None
  end.

Definition ascii_int (s : str) : exc Z :=
  let body := strip s in
  let v :=
    match body with
    | 45%N :: rest => Z.opp <$> unsigned_value rest
    | 43%N :: rest => unsigned_value rest
    | _ => unsigned_value body
    end in
  match v with
  | Some z => if 4300 <? len (List.filter is_digit body) then Raise ValueError else Ok z
  | None => Raise ValueError
  end.

Definition scalar_str (v : pyval) : str :=
  match v with
  | PNone => lit "None"
  | PBool true => lit "True"
  | PBool false => lit "False"
  | PInt n => str_of_Z n
  | PStr s => s
  | _ => []
  end.

Definition reference_builtins : Builtins :=
  {| py_int := ascii_int; py_str := scalar_str |}.

(** ** The browser side

    What happens between two runs is not part of [app.py]: the browser
    displays the emitted markup and, when a link is followed, hands the
    query part of its target to Streamlit. Both are described only as far
    as the statements below need them. *)

(** [strip_lead p s]: [s] without its prefix [p], when it has it. *)
Fixpoint strip_lead (p s : str) : option str :=
  match p, s with
  | [], _ => Some s
  | a :: p', b :: s' => if (a =? b)%N then strip_lead p' s' else None
  | _ :: _, [] => None
  end.

(** The five character references [html.escape] produces, without their
    leading ampersand, and the characters they stand for. *)
Definition references : list (str * N) :=
  [(lit "amp;", 38%N); (lit "lt;", 60%N); (lit "gt;", 62%N);
   (lit "quot;", 34%N); (lit "#x27;", 39%N)].

Fixpoint decode_reference (refs : list (str * N)) (rest : str) : option str :=
  match refs with
  | [] => None
  | (name, c) :: refs' =>
      match strip_lead name rest with
      | Some rest' => Some (c :: rest')
      | None => decode_reference refs' rest
      end
  end.

(** The text displayed for character data in which only those five
    references occur. *)
Definition unescape_step (c : N) (shown : str) : str :=
  if (c =? 38)%N then default (c :: shown) (decode_reference references shown)
  else c :: shown.

Definition html_unescape (s : str) : str := foldr unescape_step [] s.

(** The pieces of [s] between occurrences of [c]. *)
Fixpoint split_char (c : N) (s : str) : list str :=
  match s with
  | [] => [[]]
  | x :: rest =>
      if (x =? c)%N then [] :: split_char c rest
      else
        match split_char c rest with
        | piece :: pieces => (x :: piece) :: pieces
        | [] => [[x]]
        end
  end.

(** [key=value] at the first [=]. *)
Fixpoint split_pair (s : str) : str * str :=
  match s with
  | [] => ([], [])
  | x :: rest =>
      if (x =? 61)%N then ([], rest)
      else let '(k, v) := split_pair rest in (x :: k, v)
  end.

(** The parameters of a query string that holds no percent-escape and no
    [+]: fields are separated by [&], empty fields are dropped. *)
Definition parse_qs (query : str) : params :=
  split_pair <$> filter (fun piece => piece <> []) (split_char 38 query).

(** The value of a single-quoted attribute whose text starts at [s]: what
    stands before the closing quote. *)
Fixpoint quoted_value (s : str) : str :=
  match s with
  | [] => []
  | c :: rest => if (c =? 39)%N then [] else c :: quoted_value rest
  end.

(** The link target a browser reads off a card: the value of its [href]. *)
Definition card_href (markup : str) : str :=
  quoted_value (drop (length (lit "<a class='vol-card' href='")) markup).

(** The characters that stand for themselves everywhere in a URL and in
    an attribute value: letters, digits and [-._~]. *)
Definition url_plain (c : N) : bool :=
  (((48 <=? c) && (c <=? 57)) || ((65 <=? c) && (c <=? 90))
   || ((97 <=? c) && (c <=? 122))
   || (c =? 45) || (c =? 46) || (c =? 95) || (c =? 126))%N.

(** The query part of a card's link target ([href] without its [?]). *)
Definition card_query `{Builtins} (op : Opportunity.t) (current_page : Z) : str :=
  lit "id=" ++ format_value (Opportunity.id op) ++ lit "&page=" ++ str_of_Z current_page.

Definition not_found_message : str := lit "Opportunity not found.".

Definition page_heading : list widget :=
  [Title (lit "Volunteer Hub");
   Write (lit "Find volunteering opportunities " ++ [8212%N]
          ++ lit " click a card to view details.")].

Definition detail_widgets `{Builtins} (op : Opportunity.t) : list widget :=
  [Header (Opportunity.title op);
   Markdown (Opportunity.description op) false;
   Markdown
     (PStr (lit "**Organization:** [" ++ format_value (Opportunity.organization_url op)
            ++ lit "](" ++ format_value (Opportunity.organization_url op) ++ lit ")"))
     false;
   Write (lit "**Location:** " ++ format_value (Opportunity.location op));
   Write (lit "**Timeframe:** " ++ format_value (Opportunity.timeframe op));
   Write (lit "**Requirements:**")].

Arguments lit : simpl never.
Arguments str_of_Z : simpl never.
Arguments css : simpl never.


(** ** Vocabulary for the views *)

Definition is_str (v : pyval) : bool :=
  match v with
  | PStr _ => true
  | _ => false
  end.

(** A record whose four card fields are strings. *)
Definition renderable (op : Opportunity.t) : bool :=
  is_str (Opportunity.title op) && is_str (Opportunity.description op)
  && is_str (Opportunity.location op) && is_str (Opportunity.timeframe op).

(** One link of the footer, marked active or not. *)
Definition page_link (p : Z) (active : bool) : str :=
  lit "<a class='" ++ (if active then lit "page-num active" else lit "page-num")
    ++ lit "' href='?page=" ++ str_of_Z p ++ lit "'>" ++ str_of_Z p ++ lit "</a>".

(** The bullets of the detail view. *)
Definition bullets `{Builtins} (reqs : list pyval) : list widget :=
  (fun req => Write (lit "- " ++ format_value req)) <$> reqs.

(** A block of raw HTML: what the grid view emits. *)
Definition raw_html (w : widget) : bool :=
  match w with
  | Markdown _ true => true
  | _ => false
  end.

(** The widgets only the detail view emits. *)
Definition detail_only (w : widget) : bool :=
  match w with
  | Button _ | Error _ | Header _ | Markdown _ false => true
  | _ => false
  end.


(** * Properties *)

(** ** Binary64 division by the page size

    [SFdiv] computes a quotient mantissa of 53 or 54 bits together with the
    position of the exact quotient between two mantissas, then rounds to
    nearest-even. The lemmas below follow that computation for a divisor
    of 9. *)

Lemma digits2_pos_size p : digits2_pos p = Pos.size p.
Proof. induction p; simpl; congruence. Qed.

Lemma Zdigits2_bounds q d :
  0 < d -> 2 ^ (d - 1) <= q < 2 ^ d -> Zdigits2 q = d.
Proof.
  intros Hd [Hlo Hhi].
  assert (0 < q) by (pose proof (Z.pow_pos_nonneg 2 (d - 1)); lia).
  destruct q as [|p|p]; try lia. simpl. rewrite digits2_pos_size.
  pose proof (Pos.size_gt p) as Hgt. pose proof (Pos.size_le p) as Hle.
  apply Pos2Z.pos_lt_pos in Hgt. apply Pos2Z.pos_le_pos in Hle.
  rewrite Pos2Z.inj_pow in Hgt, Hle.
  change (Z.pos p~0) with (2 * Z.pos p) in Hle.
  remember (Z.pos (Pos.size p)) as s eqn:Hs.
  assert (0 < s) by lia.
  destruct (Z.lt_trichotomy s d) as [Hlt|[Heq|Hlt]]; auto; exfalso.
  - assert (2 ^ s <= 2 ^ (d - 1)) by (apply Z.pow_le_mono_r; lia). lia.
  - assert (2 ^ d <= 2 ^ (s - 1)) by (apply Z.pow_le_mono_r; lia).
    replace s with (1 + (s - 1)) in Hle at 1 by lia.
    rewrite Z.pow_add_r in Hle by lia. lia.
Qed.

Lemma loc_of_shr_record_of_loc m l :
  loc_of_shr_record (shr_record_of_loc m l) = l.
Proof. destruct l as [|[]]; reflexivity. Qed.

Lemma shr_m_of_loc m l : shr_m (shr_record_of_loc m l) = m.
Proof. destruct l as [|[]]; reflexivity. Qed.

Lemma round_nearest_even_bounds m l :
  m <= round_nearest_even m l <= m + 1.
Proof. destruct l as [|[]]; simpl; try lia. destruct (Z.even m); lia. Qed.

(* a mantissa of exactly 53 bits needs no shift *)
Lemma shr_fexp_53 q e l :
  2 ^ 52 <= q < 2 ^ 53 -> -1074 <= e ->
  shr_fexp 53 1024 q e l = (shr_record_of_loc q l, e).
Proof.
  intros Hq He. unfold shr_fexp.
  rewrite (Zdigits2_bounds q 53) by (simpl; lia).
  unfold fexp, emin. replace (Z.max (53 + e - 53) (3 - 1024 - 53) - e) with 0 by lia.
  reflexivity.
Qed.

Lemma shr_1_pos q r s :
  0 < q ->
  shr_1 {| shr_m := q; shr_r := r; shr_s := s |} =
  {| shr_m := q / 2; shr_r := Z.odd q; shr_s := r || s |}.
Proof.
  intros Hq. destruct q as [|p|p]; try lia.
  destruct p as [p|p|]; unfold shr_1.
  - f_equal. rewrite Pos2Z.inj_xI. apply Z.div_unique with 1; lia.
  - f_equal. rewrite Pos2Z.inj_xO. apply Z.div_unique with 0; lia.
  - reflexivity.
Qed.

Lemma shr_fexp_54 q e l :
  2 ^ 53 <= q < 2 ^ 54 -> -1075 <= e ->
  shr_fexp 53 1024 q e l = (shr_1 (shr_record_of_loc q l), e + 1).
Proof.
  intros Hq He. unfold shr_fexp.
  rewrite (Zdigits2_bounds q 54) by (simpl; lia).
  unfold fexp, emin. replace (Z.max (54 + e - 53) (3 - 1024 - 53) - e) with 1 by lia.
  reflexivity.
Qed.

Lemma Zdigits2_spec p :
  0 < Zdigits2 (Z.pos p) /\
  2 ^ (Zdigits2 (Z.pos p) - 1) <= Z.pos p < 2 ^ Zdigits2 (Z.pos p).
Proof.
  simpl. rewrite digits2_pos_size.
  pose proof (Pos.size_gt p) as Hgt. pose proof (Pos.size_le p) as Hle.
  apply Pos2Z.pos_lt_pos in Hgt. apply Pos2Z.pos_le_pos in Hle.
  rewrite Pos2Z.inj_pow in Hgt, Hle.
  change (Z.pos p~0) with (2 * Z.pos p) in Hle.
  remember (Z.pos (Pos.size p)) as s eqn:Hs.
  assert (0 < s) by lia. split; [lia|]. split; [|lia].
  replace s with (1 + (s - 1)) in Hle at 1 by lia.
  rewrite Z.pow_add_r in Hle by lia. lia.
Qed.

Lemma ceil_div_unique x P c :
  0 < P -> P * (c - 1) < x <= P * c -> - ((- x) / P) = c.
Proof.
  intros HP [Hlo Hhi].
  assert ((- x) / P = - c); [|lia].
  symmetry. apply Z.div_unique with (P * c - x); lia.
Qed.

Lemma math_ceil_scaled m e' e q' c :
  e <= e' < 0 -> Z.pos m * 2 ^ (e' - e) = q' ->
  2 ^ (- e) * (c - 1) < q' <= 2 ^ (- e) * c ->
  math_ceil (S754_finite false m e') = Ok c.
Proof.
  intros He Hm Hc. unfold math_ceil, cond_Zopp.
  destruct (Z.leb_spec 0 e'); [lia|]. f_equal.
  replace (- e) with (- e' + (e' - e)) in Hc by lia.
  rewrite Z.pow_add_r in Hc by lia.
  assert (0 < 2 ^ (- e')) by (apply Z.pow_pos_nonneg; lia).
  assert (0 < 2 ^ (e' - e)) by (apply Z.pow_pos_nonneg; lia).
  apply ceil_div_unique; [lia|]. subst q'. nia.
Qed.

(* rounding a 53-bit quotient: at most a renormalisation to 2^52 *)
Lemma binary_round_aux_53 q e l :
  2 ^ 52 <= q < 2 ^ 53 -> -1074 <= e <= 969 ->
  exists m e', binary_round_aux 53 1024 false q e l = S754_finite false m e'
    /\ e <= e' <= e + 1
    /\ Z.pos m * 2 ^ (e' - e) = round_nearest_even q l.
Proof.
  intros Hq He. unfold binary_round_aux.
  rewrite shr_fexp_53 by lia.
  rewrite loc_of_shr_record_of_loc, shr_m_of_loc.
  pose proof (round_nearest_even_bounds q l) as Hr.
  set (q' := round_nearest_even q l) in *.
  destruct (Z.eq_dec q' (2 ^ 53)) as [->|Hne].
  - exists (2 ^ 52)%positive, (e + 1).
    rewrite shr_fexp_54 by lia. simpl shr_record_of_loc.
    rewrite shr_1_pos by lia. simpl shr_m.
    change (2 ^ 53 / 2) with (Z.pos (2 ^ 52)).
    destruct (Z.leb_spec (e + 1) (1024 - 53)); [|lia].
    split; [reflexivity|]. split; [lia|].
    replace (e + 1 - e) with 1 by lia. reflexivity.
  - assert (0 < q') by lia. destruct q' as [|m|m] eqn:E; try lia.
    exists m, e. rewrite shr_fexp_53 by lia. simpl.
    destruct (Z.leb_spec e (1024 - 53)); [|lia].
    split; [reflexivity|]. split; [lia|].
    rewrite Z.sub_diag. simpl. lia.
Qed.

(* rounding a 54-bit quotient: one bit is shifted out first *)
Lemma binary_round_aux_54 q e l :
  2 ^ 53 <= q < 2 ^ 54 - 2 -> -1075 <= e <= 969 ->
  exists m, binary_round_aux 53 1024 false q e l = S754_finite false m (e + 1)
    /\ Z.pos m =
       round_nearest_even (q / 2)
         (loc_of_shr_record (shr_1 (shr_record_of_loc q l))).
Proof.
  intros Hq He. unfold binary_round_aux.
  rewrite shr_fexp_54 by lia.
  set (l' := loc_of_shr_record _).
  assert (Hm : shr_m (shr_1 (shr_record_of_loc q l)) = q / 2).
  { destruct l as [|[]]; simpl shr_record_of_loc; rewrite shr_1_pos by lia; reflexivity. }
  rewrite Hm.
  pose proof (round_nearest_even_bounds (q / 2) l') as Hr.
  set (q' := round_nearest_even (q / 2) l') in *.
  assert (2 ^ 52 <= q / 2 <= 2 ^ 53 - 2).
  { split; [apply Z.div_le_lower_bound; lia|].
    apply Z.lt_succ_r, Z.div_lt_upper_bound; lia. }
  assert (2 ^ 52 <= q' < 2 ^ 53) by lia.
  destruct q' as [|m|m] eqn:E; try lia.
  exists m. rewrite shr_fexp_53 by lia. simpl.
  destruct (Z.leb_spec (e + 1) (1024 - 53)); [|lia].
  split; reflexivity.
Qed.

Lemma div_eucl_div_mod a b : Z.div_eucl a b = (a / b, a mod b).
Proof. unfold Z.div, Z.modulo. destruct (Z.div_eucl a b); reflexivity. Qed.

Lemma SFdiv_core_9 p d :
  Zdigits2 (Z.pos p) = d -> 0 < d <= 56 ->
  SFdiv_core_binary 53 1024 (Z.pos p) 0 9 0 =
    ((Z.pos p * 2 ^ (57 - d)) / 9, d - 57,
     new_location 9 ((Z.pos p * 2 ^ (57 - d)) mod 9)).
Proof.
  intros Hd Hr. unfold SFdiv_core_binary. rewrite Hd.
  change (Zdigits2 9) with 4. unfold fexp, emin.
  replace (Z.min (Z.max (d + 0 - (4 + 0) - 53) (3 - 1024 - 53)) (0 - 0))
    with (d - 57) by lia.
  replace (0 - 0 - (d - 57)) with (57 - d) by lia.
  destruct (57 - d) as [|s|s] eqn:Es; try lia.
  rewrite Z.shiftl_mul_pow2 by lia.
  rewrite div_eucl_div_mod. reflexivity.
Qed.

Lemma round_new_location_9 q r :
  0 <= r < 9 ->
  round_nearest_even q (new_location 9 r) = q + (if 5 <=? r then 1 else 0).
Proof.
  intros Hr.
  assert (r = 0 \/ r = 1 \/ r = 2 \/ r = 3 \/ r = 4 \/ r = 5 \/ r = 6 \/ r = 7 \/ r = 8)
    as H by lia.
  repeat (destruct H as [->|H]); try subst r; simpl; lia.
Qed.

Lemma round_shifted_9 q r :
  0 < q -> 0 <= r < 9 ->
  round_nearest_even (q / 2)
    (loc_of_shr_record (shr_1 (shr_record_of_loc q (new_location 9 r)))) =
  q / 2 + (if Z.odd q then (if (r =? 0) && Z.even (q / 2) then 0 else 1) else 0).
Proof.
  intros Hq Hr.
  assert (r = 0 \/ r = 1 \/ r = 2 \/ r = 3 \/ r = 4 \/ r = 5 \/ r = 6 \/ r = 7 \/ r = 8)
    as H by lia.
  repeat (destruct H as [->|H]); try subst r;
    match goal with
    | |- context [new_location 9 ?r] =>
        let l := eval vm_compute in (new_location 9 r) in
        change (new_location 9 r) with l
    end;
    cbn [shr_record_of_loc Z.eqb andb];
    rewrite shr_1_pos by lia; cbn [loc_of_shr_record orb];
    destruct (Z.odd q); cbn [round_nearest_even]; try lia;
    destruct (Z.even (q / 2)); lia.
Qed.

(** Up to [9 * 2^50] the rounded quotient by 9 has the ceiling of the exact
    one: rounding never reaches down to the integer below. *)
Lemma true_div_page_size n :
  0 < n <= 9 * 2 ^ 50 ->
  exists m e,
    true_div n PAGE_SIZE = Ok (S754_finite false m e)
    /\ math_ceil (S754_finite false m e)
       = Ok (n / 9 + (if n mod 9 =? 0 then 0 else 1)).
Proof.
  intros Hn. destruct n as [|p|p]; [lia| |lia].
  unfold true_div, PAGE_SIZE. cbn [Z.eqb float_of_int].
  destruct (Zdigits2_spec p) as [Hd0 Hd]. set (d := Zdigits2 (Z.pos p)) in *.
  assert (Hd54 : d <= 54).
  { destruct (Z.le_gt_cases d 54); [assumption|exfalso].
    assert (2 ^ 54 <= 2 ^ (d - 1)) by (apply Z.pow_le_mono_r; lia). lia. }
  unfold SFdiv. rewrite (SFdiv_core_9 p d) by (auto; lia).
  set (n := Z.pos p) in *.
  assert (HP : 2 ^ (d - 1) * 2 ^ (57 - d) = 2 ^ 56)
    by (rewrite <- Z.pow_add_r by lia; f_equal; lia).
  assert (HP' : 2 ^ (57 - d) = 2 * 2 ^ (56 - d)).
  { replace (57 - d) with (1 + (56 - d)) by lia. rewrite Z.pow_add_r by lia. reflexivity. }
  assert (HP8 : 2 ^ (56 - d) = 4 \/ 8 <= 2 ^ (56 - d)).
  { destruct (Z.eq_dec d 54) as [->|]; [left; reflexivity|right].
    change 8 with (2 ^ 3). apply Z.pow_le_mono_r; lia. }
  remember (2 ^ (57 - d)) as P eqn:EP.
  remember (2 ^ (56 - d)) as P2 eqn:EP2.
  assert (HnP : 2 ^ 56 <= n * P < 2 ^ 57).
  { change (2 ^ 57) with (2 * 2 ^ 56). rewrite <- HP.
    replace d with (1 + (d - 1)) in Hd at 2 by lia.
    rewrite Z.pow_add_r in Hd by lia. nia. }
  pose proof (Z.div_mod (n * P) 9 ltac:(lia)) as Hqr.
  pose proof (Z.mod_pos_bound (n * P) 9 ltac:(lia)) as Hrb.
  set (q := n * P / 9) in *. set (r := (n * P) mod 9) in *.
  pose proof (Z.div_mod n 9 ltac:(lia)) as Hk.
  pose proof (Z.mod_pos_bound n 9 ltac:(lia)) as Hrho.
  set (k := n / 9) in *. set (rho := n mod 9) in *.
  assert (Hqb : 2 ^ 52 <= q < 2 ^ 54 - 2) by lia.
  assert (Hgoal : exists m e', binary_round_aux 53 1024 (xorb false false) q (d - 57)
                     (new_location 9 r) = S754_finite false m e'
                   /\ math_ceil (S754_finite false m e')
                      = Ok (k + (if rho =? 0 then 0 else 1))).
  { destruct (Z.lt_ge_cases q (2 ^ 53)) as [Hq53|Hq53].
    - destruct (binary_round_aux_53 q (d - 57) (new_location 9 r))
        as (m & e' & Hres & He' & Hm); [lia|lia|].
      exists m, e'. split; [exact Hres|].
      rewrite round_new_location_9 in Hm by lia.
      apply (math_ceil_scaled m e' (d - 57) _ _ ltac:(lia) Hm).
      replace (- (d - 57)) with (57 - d) by lia. rewrite <- EP.
      destruct (Z.eqb_spec rho 0); destruct (Z.leb_spec 5 r); nia.
    - destruct (binary_round_aux_54 q (d - 57) (new_location 9 r))
        as (m & Hres & Hm); [lia|lia|].
      exists m, (d - 57 + 1). split; [exact Hres|].
      rewrite round_shifted_9 in Hm by lia.
      apply (math_ceil_scaled m (d - 57 + 1) (d - 57 + 1) (Z.pos m)).
      + lia.
      + rewrite Z.sub_diag. simpl. lia.
      + replace (- (d - 57 + 1)) with (56 - d) by lia. rewrite <- EP2.
        rewrite Hm.
        pose proof (Z.bit0_mod q) as Hodd. rewrite Z.bit0_odd in Hodd.
        pose proof (Z.div_mod q 2 ltac:(lia)) as Hh.
        set (h := q / 2) in *.
        destruct HP8 as [HP4|HP8].
        * assert (n = 9 * 2 ^ 50) by lia.
          assert (rho = 0 /\ k = 2 ^ 50) as [Hrho0 Hk0] by lia.
          assert (q = 2 ^ 53 /\ r = 0) as [Hq0 Hr0] by lia.
          assert (Hodd0 : Z.odd q = false) by (rewrite Hq0; reflexivity).
          rewrite Hodd0 in Hodd |- *. cbn [Z.b2z] in Hodd. rewrite HP4.
          destruct (Z.eqb_spec rho 0); lia.
        * destruct (Z.odd q); cbn [Z.b2z] in Hodd;
          destruct (Z.eqb_spec rho 0); destruct (Z.eqb_spec r 0);
          cbn [andb]; try destruct (Z.even h); nia. }
  destruct Hgoal as (m & e' & Hres & Hceil).
  exists m, e'. rewrite Hres. split; [reflexivity|exact Hceil].
Qed.

Lemma ceil_div_9 n :
  ceil_div n PAGE_SIZE = n / 9 + (if n mod 9 =? 0 then 0 else 1).
Proof.
  unfold ceil_div, PAGE_SIZE.
  pose proof (Z.div_mod n 9 ltac:(lia)). pose proof (Z.mod_pos_bound n 9 ltac:(lia)).
  destruct (Z.eqb_spec (n mod 9) 0).
  - apply ceil_div_unique; lia.
  - apply ceil_div_unique; lia.
Qed.

Lemma total_pages_exact n :
  0 <= n <= 9 * 2 ^ 50 -> total_pages n = Ok (Z.max 1 (ceil_div n PAGE_SIZE)).
Proof.
  intros Hn. rewrite ceil_div_9.
  destruct (Z.eq_dec n 0) as [->|Hn0]; [reflexivity|].
  destruct (true_div_page_size n) as (m & e & Hdiv & Hceil); [lia|].
  unfold total_pages. rewrite Hdiv. cbn [mbind exc_bind]. rewrite Hceil.
  reflexivity.
Qed.

Lemma total_pages_ge_1 n tp : total_pages n = Ok tp -> 1 <= tp.
Proof.
  unfold total_pages. destruct (true_div n PAGE_SIZE) as [x|]; [|discriminate].
  cbn [mbind exc_bind]. destruct (math_ceil x) as [c|]; [|discriminate].
  cbn [mbind exc_bind mret exc_ret]. intros [= <-]. lia.
Qed.

(** *** No overflow for a machine-size count

    [len] of a list is below [2^63]; for such a count the division neither
    overflows nor yields a NaN, so [total_pages] has a value. *)

Lemma iter_pos_invariant {A} (P : A -> Prop) (f : A -> A) :
  (forall x, P x -> P (f x)) ->
  forall (n : positive) (x : A), P x -> P (SpecFloat.iter_pos f n x).
Proof.
  intros Hf. induction n as [n IH|n IH|]; intros x Hx; simpl; auto.
Qed.

Lemma shr_1_bounds B mrs :
  0 <= shr_m mrs <= B -> 0 <= shr_m (shr_1 mrs) <= B.
Proof.
  destruct mrs as [m r s]. simpl. intros Hm.
  destruct m as [|[p|p|]|p]; simpl; lia.
Qed.

Lemma shr_bounds B mrs e n :
  0 <= shr_m mrs <= B ->
  0 <= shr_m (shr mrs e n).1 <= B /\ (shr mrs e n).2 = e + Z.max 0 n.
Proof.
  intros Hm. unfold shr. destruct n as [|p|p]; simpl; try (split; [exact Hm|lia]).
  split; [|lia].
  apply (iter_pos_invariant (fun x => 0 <= shr_m x <= B)); [apply shr_1_bounds|exact Hm].
Qed.

Lemma Zdigits2_le m k : 0 <= k -> 0 <= m < 2 ^ k -> 0 <= Zdigits2 m <= k.
Proof.
  intros Hk Hm. destruct m as [|p|p]; [simpl; lia| |lia].
  destruct (Zdigits2_spec p) as [Hd0 [Hlo Hhi]].
  split; [lia|]. destruct (Z.le_gt_cases (Zdigits2 (Z.pos p)) k) as [|Hgt]; [assumption|exfalso].
  assert (2 ^ k <= 2 ^ (Zdigits2 (Z.pos p) - 1)) by (apply Z.pow_le_mono_r; lia).
  lia.
Qed.

Lemma shr_fexp_bounds B m e l :
  0 <= m <= B ->
  0 <= shr_m (shr_fexp 53 1024 m e l).1 <= B
  /\ (shr_fexp 53 1024 m e l).2 = Z.max e (fexp 53 1024 (Zdigits2 m + e)).
Proof.
  intros Hm. unfold shr_fexp.
  destruct (shr_bounds B (shr_record_of_loc m l) e
              (fexp 53 1024 (Zdigits2 m + e) - e)) as [Hb He].
  { rewrite shr_m_of_loc. exact Hm. }
  split; [exact Hb|]. rewrite He. lia.
Qed.

Lemma binary_round_aux_defined q e l :
  0 <= q < 2 ^ 63 -> -56 <= e <= 0 ->
  match binary_round_aux 53 1024 false q e l with
  | S754_zero _ | S754_finite _ _ _ => True
  | _ => False
  end.
Proof.
  intros Hq He. unfold binary_round_aux.
  destruct (shr_fexp_bounds (2 ^ 63) q e l ltac:(lia)) as [Hm1 He1].
  pose proof (Zdigits2_le q 63 ltac:(lia) Hq) as Hdq.
  destruct (shr_fexp 53 1024 q e l) as [mrs' e'] eqn:E1. cbn [fst snd] in Hm1, He1.
  pose proof (round_nearest_even_bounds (shr_m mrs') (loc_of_shr_record mrs')) as Hr.
  set (m1 := round_nearest_even (shr_m mrs') (loc_of_shr_record mrs')) in *.
  destruct (shr_fexp_bounds (2 ^ 64) m1 e' loc_Exact ltac:(lia)) as [Hm2 He2].
  pose proof (Zdigits2_le m1 64 ltac:(lia) ltac:(lia)) as Hd1.
  destruct (shr_fexp 53 1024 m1 e' loc_Exact) as [mrs'' e''] eqn:E2.
  cbn [fst snd] in Hm2, He2. unfold fexp, emin in He1, He2.
  destruct (shr_m mrs'') as [|m|m]; [exact I| |lia].
  destruct (Z.leb_spec e'' (1024 - 53)); [exact I|lia].
Qed.

Lemma SFdiv_core_bounds p :
  Z.pos p < 2 ^ 63 ->
  0 <= (SFdiv_core_binary 53 1024 (Z.pos p) 0 9 0).1.1 < 2 ^ 63
  /\ -56 <= (SFdiv_core_binary 53 1024 (Z.pos p) 0 9 0).1.2 <= 0.
Proof.
  intros Hp. destruct (Zdigits2_spec p) as [Hd0 Hd].
  pose proof (Zdigits2_le (Z.pos p) 63 ltac:(lia) ltac:(lia)) as Hd63.
  set (d := Zdigits2 (Z.pos p)) in *.
  destruct (Z.le_gt_cases d 56) as [Hsmall|Hbig].
  - rewrite (SFdiv_core_9 p d) by (auto; lia). cbn [fst snd].
    assert (HP : 2 ^ d * 2 ^ (57 - d) = 2 ^ 57)
      by (rewrite <- Z.pow_add_r by lia; f_equal; lia).
    assert (0 < 2 ^ (57 - d)) by (apply Z.pow_pos_nonneg; lia).
    assert (0 <= Z.pos p * 2 ^ (57 - d) < 2 ^ 57) by nia.
    split; [|lia]. split.
    + apply Z.div_pos; lia.
    + apply Z.div_lt_upper_bound; lia.
  - unfold SFdiv_core_binary. fold d. change (Zdigits2 9) with 4.
    unfold fexp, emin.
    replace (Z.min (Z.max (d + 0 - (4 + 0) - 53) (3 - 1024 - 53)) (0 - 0))
      with 0 by lia.
    change (0 - 0 - 0) with 0. cbv iota. rewrite div_eucl_div_mod. cbn [fst snd].
    split; [|lia]. split.
    + apply Z.div_pos; lia.
    + apply Z.div_lt_upper_bound; lia.
Qed.

Lemma total_pages_defined n :
  0 <= n < 2 ^ 63 -> exists tp, total_pages n = Ok tp.
Proof.
  intros Hn. destruct n as [|p|p]; [exists 1; reflexivity| |lia].
  unfold total_pages, true_div, PAGE_SIZE. cbn [Z.eqb float_of_int SFdiv].
  destruct (SFdiv_core_bounds p ltac:(lia)) as [Hq He].
  destruct (SFdiv_core_binary 53 1024 (Z.pos p) 0 9 0) as [[q e] l].
  cbn [fst snd] in Hq, He.
  pose proof (binary_round_aux_defined q e l Hq He) as Hfin.
  cbn [xorb]. destruct (binary_round_aux 53 1024 false q e l) as [s|s| |s m e'];
    try contradiction; cbn; eauto.
Qed.

(** ** Pagination *)

Lemma py_slice_nonneg {A} (l : list A) (i j : Z) :
  0 <= i <= j -> py_slice l i j = take (Z.to_nat (j - i)) (drop (Z.to_nat i) l).
Proof.
  intros Hij. unfold py_slice, slice_index.
  destruct (Z.ltb_spec i 0); [lia|]. destruct (Z.ltb_spec j 0); [lia|].
  destruct (Z.le_gt_cases i (Z.of_nat (length l))) as [Hi|Hi].
  - rewrite (Z.min_l i) by lia.
    destruct (Z.le_gt_cases j (Z.of_nat (length l))) as [Hj|Hj].
    + rewrite (Z.min_l j) by lia. reflexivity.
    + rewrite (Z.min_r j) by lia.
      rewrite !take_ge; [reflexivity| |]; rewrite length_drop; lia.
  - rewrite !Z.min_r by lia. rewrite Z.sub_diag. simpl.
    rewrite (drop_ge l (Z.to_nat i)) by lia. by rewrite take_nil.
Qed.

Lemma py_slice_length_le {A} (l : list A) (i : Z) :
  (length (py_slice l i (i + 9)) <= 9)%nat.
Proof.
  unfold py_slice, slice_index. rewrite length_take.
  destruct (Z.ltb_spec i 0); destruct (Z.ltb_spec (i + 9) 0); lia.
Qed.

Lemma current_page_ge_1 tp page : 1 <= current_page tp page.
Proof. unfold current_page. lia. Qed.

Lemma current_page_bounds tp page : 1 <= tp -> 1 <= current_page tp page <= tp.
Proof. unfold current_page. lia. Qed.

(** Correcting a corrected page changes nothing. *)
Lemma current_page_idempotent tp page :
  current_page tp (current_page tp page) = current_page tp page.
Proof. unfold current_page. lia. Qed.

Lemma page_items_slice (ops : list Opportunity.t) (p : Z) :
  1 <= p -> page_items ops p = take 9 (drop (Z.to_nat ((p - 1) * 9)) ops).
Proof.
  intros Hp. unfold page_items, PAGE_SIZE. rewrite py_slice_nonneg by lia.
  f_equal. lia.
Qed.

(** The first [k] pages, one after the other, are the first [9 * k]
    records. *)
Lemma concat_page_items (ops : list Opportunity.t) (k : nat) :
  concat (page_items ops <$> seqZ 1 (Z.of_nat k)) = take (9 * k) ops.
Proof.
  induction k as [|k IH].
  - rewrite seqZ_nil by lia. by rewrite Nat.mul_0_r.
  - rewrite seqZ_S, fmap_app, concat_app, IH. cbn [fmap list_fmap concat].
    rewrite app_nil_r, page_items_slice by lia.
    replace (Z.to_nat ((1 + Z.of_nat k - 1) * 9)) with (9 * k)%nat by lia.
    rewrite take_take_drop. f_equal. lia.
Qed.

Lemma concat_page_items_length (ops : list Opportunity.t) (pages : list Z) :
  (length (concat (page_items ops <$> pages)) <= 9 * length pages)%nat.
Proof.
  induction pages as [|p pages IH]; [simpl; lia|].
  cbn [fmap list_fmap concat length]. rewrite length_app.
  pose proof (py_slice_length_le ops ((p - 1) * PAGE_SIZE)). unfold page_items, PAGE_SIZE in *.
  cbn [fmap] in IH. lia.
Qed.

Lemma last_page_length n tp :
  0 <= n -> tp = Z.max 1 (ceil_div n PAGE_SIZE) ->
  Z.min 9 (n - (tp - 1) * 9)
  = if n =? 0 then 0 else if n mod 9 =? 0 then 9 else n mod 9.
Proof.
  intros Hn ->. rewrite ceil_div_9.
  pose proof (Z.div_mod n 9 ltac:(lia)). pose proof (Z.mod_pos_bound n 9 ltac:(lia)).
  assert (0 <= n / 9) by (apply Z.div_pos; lia).
  destruct (Z.eqb_spec n 0) as [->|Hn0]; [reflexivity|].
  destruct (Z.eqb_spec (n mod 9) 0); lia.
Qed.

(** C1: every page shown is the contiguous slice
    [records[(p-1)*9 : p*9]] of the loaded records; and for every list the
    script can have loaded (at most [9 * 2^50] records: a longer list
    takes more than [2^56] bytes for its references alone) the page count
    is defined, the pages [1..total_pages] concatenated in order give back
    the list exactly, and the last page holds [n mod 9] records ([9] when
    [9] divides [n > 0], [0] only when [n = 0]). *)
Theorem C1_pages_partition (ops : list Opportunity.t) :
  (forall tp page,
      let p := current_page tp page in
      page_items ops p = py_slice ops ((p - 1) * 9) (p * 9)
      /\ page_items ops p = take 9 (drop (Z.to_nat ((p - 1) * 9)) ops))
  /\ (len ops <= 9 * 2 ^ 50 ->
      exists tp,
        total_pages (len ops) = Ok tp
        /\ concat (page_items ops <$> seqZ 1 tp) = ops
        /\ len (page_items ops tp)
           = if len ops =? 0 then 0
             else if len ops mod 9 =? 0 then 9 else len ops mod 9).
Proof.
  split.
  - intros tp page p. pose proof (current_page_ge_1 tp page). split.
    + unfold page_items, PAGE_SIZE. f_equal. lia.
    + apply page_items_slice. assumption.
  - intros Hlen. exists (Z.max 1 (ceil_div (len ops) PAGE_SIZE)).
    assert (Hn : 0 <= len ops) by (unfold len; lia).
    split; [apply total_pages_exact; lia|].
    set (tp := Z.max 1 (ceil_div (len ops) PAGE_SIZE)).
    pose proof (last_page_length (len ops) tp Hn eq_refl) as Hlast.
    assert (Hcover : (tp - 1) * 9 <= len ops <= 9 * tp).
    { subst tp. rewrite ceil_div_9.
      pose proof (Z.div_mod (len ops) 9 ltac:(lia)).
      pose proof (Z.mod_pos_bound (len ops) 9 ltac:(lia)).
      destruct (Z.eqb_spec (len ops mod 9) 0); lia. }
    assert (Htp : 1 <= tp) by (subst tp; lia).
    split.
    + replace tp with (Z.of_nat (Z.to_nat tp)) by lia.
      rewrite concat_page_items. apply take_ge. unfold len in Hcover. lia.
    + rewrite <- Hlast. rewrite page_items_slice by lia.
      unfold len in *. rewrite length_take, length_drop. lia.
Qed.

(** C1 at a list of ten records: two pages, of nine records and of one. *)
Lemma C1_witness :
  let ops := (fun i => typed_record (str_of_Z i) (lit "t") (lit "d") [] [] [] [])
               <$> seqZ 1 10 in
  len ops <= 9 * 2 ^ 50
  /\ exists tp,
       total_pages (len ops) = Ok tp
       /\ concat (page_items ops <$> seqZ 1 tp) = ops
       /\ len (page_items ops tp)
          = if len ops =? 0 then 0
            else if len ops mod 9 =? 0 then 9 else len ops mod 9.
Proof.
  intros ops.
  assert (Hlen : len ops <= 9 * 2 ^ 50) by (vm_compute; discriminate).
  split; [exact Hlen|].
  exact (proj2 (C1_pages_partition ops) Hlen).
Defined.

(** C2: for every record count [n >= 0] that [len(ops)] can have (at most
    [9 * 2^50]: a longer list takes more than [2^56] bytes for its
    references alone) the computed page count is [max(1, ceil(n/9))],
    which is at least 1 (also for [n = 0]). *)
Theorem C2_total_pages (n : Z) :
  0 <= n <= 9 * 2 ^ 50 ->
  total_pages n = Ok (Z.max 1 (ceil_div n PAGE_SIZE))
  /\ 1 <= Z.max 1 (ceil_div n PAGE_SIZE).
Proof.
  intros Hn. split; [apply total_pages_exact; assumption|lia].
Qed.

(** C2 at ten records. *)
Lemma C2_witness :
  0 <= 10 <= 9 * 2 ^ 50
  /\ total_pages 10 = Ok (Z.max 1 (ceil_div 10 PAGE_SIZE))
  /\ 1 <= Z.max 1 (ceil_div 10 PAGE_SIZE).
Proof.
  assert (H : 0 <= 10 <= 9 * 2 ^ 50) by lia.
  split; [exact H|]. exact (C2_total_pages 10 H).
Defined.

(** The quotients Python prints as [0.3333333333333333] and, for the
    integers [9 * 2^50 + 1] and [9], as [1125899906842624.0]. *)
Example true_div_1_3 : true_div 1 3 = Ok (S754_finite false 6004799503160661 (-54)).
Proof. reflexivity. Qed.

Example true_div_rounds_down :
  true_div (9 * 2 ^ 50 + 1) 9 = Ok (S754_finite false (2 ^ 52) (-2)).
Proof. vm_compute. reflexivity. Qed.

Example total_pages_9 : total_pages 9 = Ok 1.
Proof. reflexivity. Qed.

Example total_pages_10 : total_pages 10 = Ok 2.
Proof. reflexivity. Qed.

Example total_pages_0 : total_pages 0 = Ok 1.
Proof. reflexivity. Qed.

Example ten_records_two_pages :
  let ops := (fun i => typed_record (str_of_Z i) [] [] [] [] [] []) <$> seqZ 1 10 in
  len (page_items ops 1) = 9
  /\ page_items ops 2 = [typed_record (lit "10") [] [] [] [] [] []]
  /\ page_items ops 3 = [].
Proof. repeat split. Qed.

(** ** Runs of the script

    Each view, run from a given state, spelled out as the widgets it adds
    and the way it ends. *)


Section Runs.
Context `{Builtins}.

Lemma parse_page_total (page_param : option str) :
  parse_page page_param
  = Ok (match page_param with
        | Some s => match py_int s with Ok z => z | Raise _ => 1 end
        | None => 1
        end).
Proof.
  unfold parse_page, try_except.
  destruct page_param as [s|]; [destruct (py_int s)|]; reflexivity.
Qed.

Lemma qp_get_first (q : params) (name : str) :
  qp_get q name None = head (values q name).
Proof.
  unfold qp_get, get, get_all. cbn [mbind exc_bind mret exc_ret try_except].
  destruct (values q name); reflexivity.
Qed.

Lemma back_to_list_run (cp : Z) (clicked : bool) (s : state) :
  back_to_list cp clicked s
  = (if clicked then Stopped RerunException else Done (),
     State (ui s ++ [Button (lit "Back to list")])
           (if clicked then [(lit "page", str_of_Z cp)] else query_params s)).
Proof. destruct s, clicked; reflexivity. Qed.

Lemma mapM_st_write (f : pyval -> str) (reqs : list pyval) (s : state) :
  mapM (fun req => st_write (f req)) reqs s
  = (Done ((fun _ => ()) <$> reqs),
     State (ui s ++ ((fun req => Write (f req)) <$> reqs)) (query_params s)).
Proof.
  revert s. induction reqs as [|r reqs IH]; intros [ws q].
  - cbn. by rewrite app_nil_r.
  - cbn [mapM]. unfold mbind at 1, script_bind. cbn [st_write emit ui query_params].
    unfold mbind at 1, script_bind. rewrite IH. cbn. by rewrite <- app_assoc.
Qed.

Lemma detail_view_not_found (ops : list Opportunity.t) (sid : str) (cp : Z)
    (clicked : bool) (s : state) :
  find (fun o => py_eq_str (Opportunity.id o) sid) ops = None ->
  detail_view ops sid cp clicked s
  = (if clicked then Stopped RerunException else Done (),
     State (ui s ++ [Error not_found_message; Button (lit "Back to list")])
           (if clicked then [(lit "page", str_of_Z cp)] else query_params s)).
Proof.
  intros Hfind. unfold detail_view. rewrite Hfind.
  unfold mbind, script_bind. cbn [st_error emit]. rewrite back_to_list_run.
  cbn [ui query_params]. by rewrite <- (assoc_L (++)).
Qed.

Lemma detail_view_found (ops : list Opportunity.t) (sid : str) (cp : Z)
    (clicked : bool) (s : state) (op : Opportunity.t) :
  find (fun o => py_eq_str (Opportunity.id o) sid) ops = Some op ->
  detail_view ops sid cp clicked s
  = match py_iter (Opportunity.requirements op) with
    | Ok reqs =>
        (if clicked then Stopped RerunException else Done (),
         State (ui s ++ detail_widgets op
                  ++ ((fun req => Write (lit "- " ++ format_value req)) <$> reqs)
                  ++ [Button (lit "Back to list")])
               (if clicked then [(lit "page", str_of_Z cp)] else query_params s))
    | Raise e =>
        (Stopped (Uncaught e), State (ui s ++ detail_widgets op) (query_params s))
    end.
Proof.
  intros Hfind. unfold detail_view. rewrite Hfind.
  unfold mbind at 1 2 3 4 5 6 7, script_bind.
  cbn [st_header st_markdown st_write emit ui query_params lift].
  destruct (py_iter (Opportunity.requirements op)) as [reqs|e].
  - unfold mbind, script_bind. rewrite mapM_st_write, back_to_list_run.
    cbn [ui query_params]. unfold detail_widgets.
    rewrite <- !(assoc_L (++)). reflexivity.
  - unfold detail_widgets. rewrite <- !(assoc_L (++)). reflexivity.
Qed.

Lemma grid_view_run (ops : list Opportunity.t) (tp cp : Z) (s : state) :
  grid_view ops tp cp s
  = match cards (page_items ops cp) cp with
    | Ok cs =>
        (Done (),
         State (ui s ++ [Markdown (PStr (concat cs)) true;
                         Markdown (PStr (concat (footer tp cp))) true])
               (query_params s))
    | Raise e => (Stopped (Uncaught e), s)
    end.
Proof.
  unfold grid_view, mbind, script_bind, lift.
  destruct (cards (page_items ops cp) cp) as [cs|e]; [|reflexivity].
  unfold st_markdown, emit. cbn [ui query_params]. by rewrite <- (assoc_L (++)).
Qed.

Lemma main_run (ops : list Opportunity.t) (clicked : bool) (q : params) (tp : Z) :
  total_pages (len ops) = Ok tp ->
  exists page,
    parse_page (qp_get q (lit "page") None) = Ok page
    /\ main ops clicked (start q)
       = match qp_get q (lit "id") None with
         | Some (c :: sid) =>
             detail_view ops (c :: sid) (current_page tp page) clicked
               (State page_heading q)
         | _ => grid_view ops tp (current_page tp page) (State page_heading q)
         end.
Proof.
  intros Htp. rewrite parse_page_total. eexists. split; [reflexivity|].
  unfold main, start. unfold mbind at 1, script_bind. rewrite Htp.
  cbn [lift]. unfold mbind at 1, script_bind. cbn [st_query_params query_params].
  unfold mbind at 1, script_bind. rewrite parse_page_total. cbn [lift].
  unfold mbind, script_bind, st_title, st_write, emit. cbn [ui query_params app].
  destruct (qp_get q (lit "id") None) as [[|c sid]|]; reflexivity.
Qed.
End Runs.

(** ** The requested page and its correction *)

(** Membership of a widget in a run's output, taken apart. *)
Ltac widget_cases :=
  repeat match goal with
    | H : _ \/ _ |- _ => destruct H as [H|H]
    | H : _ ∈ _ ++ _ |- _ => apply elem_of_app in H
    | H : _ ∈ _ :: _ |- _ => apply elem_of_cons in H
    | H : _ ∈ [] |- _ => apply elem_of_nil in H; contradiction
    | H : _ ∈ _ <$> _ |- _ =>
        apply list_elem_of_fmap in H; destruct H as (? & H & ?)
    | H : @eq widget _ _ |- _ => first [discriminate H | injection H as H]
    end.

Lemma error_in_main_run `{Builtins} (ops : list Opportunity.t) (q : params)
    (clicked : bool) (tp : Z) (msg : str) :
  total_pages (len ops) = Ok tp ->
  Error msg ∈ ui (main ops clicked (start q)).2 ->
  msg = not_found_message /\ truthy (qp_get q (lit "id") None) = true.
Proof.
  intros Htp. destruct (main_run ops clicked q tp Htp) as (page & _ & ->).
  assert (Hgrid : Error msg ∈
            ui (grid_view ops tp (current_page tp page) (State page_heading q)).2
            -> False).
  { rewrite grid_view_run. unfold page_heading.
    destruct (cards _ _); cbn [snd ui]; intros Hin; widget_cases. }
  destruct (qp_get q (lit "id") None) as [[|c sid]|]; try (intros []%Hgrid).
  destruct (find (fun o => py_eq_str (Opportunity.id o) (c :: sid)) ops) as [op|] eqn:Hfind.
  - rewrite (detail_view_found _ _ _ _ _ op Hfind). unfold page_heading, detail_widgets.
    destruct (py_iter (Opportunity.requirements op)); cbn [snd ui query_params];
      intros Hin; widget_cases.
  - rewrite (detail_view_not_found _ _ _ _ _ Hfind). unfold page_heading.
    cbn [snd ui]. intros Hin. widget_cases. subst msg. split; reflexivity.
Qed.

(** C3: whatever integer the URL gave for the page, the page shown is
    [max(1, min(total_pages, page))] and lies in [1, total_pages]; and the
    run surfaces no error for it: the only error widget a run ever shows is
    the not-found message of the detail view. *)
Theorem C3_page_clamped `{Builtins} (ops : list Opportunity.t) (q : params)
    (clicked : bool) (tp : Z) :
  total_pages (len ops) = Ok tp ->
  (forall page : Z,
      current_page tp page = Z.max 1 (Z.min tp page)
      /\ 1 <= current_page tp page <= tp)
  /\ (forall msg, Error msg ∈ ui (main ops clicked (start q)).2 ->
                  msg = not_found_message).
Proof.
  intros Htp. pose proof (total_pages_ge_1 _ _ Htp) as Hge. split.
  - intros page. split; [reflexivity|]. apply current_page_bounds. exact Hge.
  - intros msg Hin. apply (error_in_main_run ops q clicked tp msg Htp Hin).
Qed.

(** C3 at one record and the query [page=-7]. *)
Lemma C3_witness :
  let ops := [typed_record (lit "a") [] [] [] [] [] []] in
  let q := [(lit "page", lit "-7")] in
  total_pages (len ops) = Ok 1
  /\ (forall page : Z,
         current_page 1 page = Z.max 1 (Z.min 1 page)
         /\ 1 <= current_page 1 page <= 1)
  /\ (forall msg,
         Error msg ∈ ui (@main reference_builtins ops false (start q)).2 ->
         msg = not_found_message).
Proof.
  intros ops q.
  assert (Htp : total_pages (len ops) = Ok 1) by reflexivity.
  split; [exact Htp|].
  exact (@C3_page_clamped reference_builtins ops q false 1 Htp).
Defined.

(** C4: resolving the [page] parameter never raises. Of several values the
    first one is taken; it is handed to [int]; when [int] fails, or when
    the parameter is absent, the page is 1. *)
Theorem C4_page_param_resolution `{Builtins} (q : params) :
  qp_get q (lit "page") None = head (values q (lit "page"))
  /\ parse_page (qp_get q (lit "page") None)
     = Ok (match values q (lit "page") with
           | [] => 1
           | first :: _ =>
               match py_int first with
               | Ok z => z
               | Raise _ => 1
               end
           end).
Proof.
  split; [apply qp_get_first|].
  rewrite parse_page_total, qp_get_first.
  destruct (values q (lit "page")); reflexivity.
Qed.

Example page_first_of_two :
  @parse_page reference_builtins
    (qp_get [(lit "page", lit "3"); (lit "id", lit "x"); (lit "page", lit "5")]
       (lit "page") None) = Ok 3.
Proof. reflexivity. Qed.

Example page_not_a_number :
  @parse_page reference_builtins (qp_get [(lit "page", lit "abc")] (lit "page") None)
  = Ok 1.
Proof. reflexivity. Qed.

Example page_negative_is_clamped :
  (p ← @parse_page reference_builtins (qp_get [(lit "page", lit "-4")] (lit "page") None);
   mret (current_page 7 p)) = Ok 1.
Proof. reflexivity. Qed.

(** ** [html.escape] *)

Lemma replace_char_app (c : N) (r a b : str) :
  replace_char c r (a ++ b) = replace_char c r a ++ replace_char c r b.
Proof. unfold replace_char. by rewrite fmap_app, concat_app. Qed.

Lemma html_escape_app (a b : str) :
  html_escape (a ++ b) = html_escape a ++ html_escape b.
Proof. unfold html_escape. by rewrite !replace_char_app. Qed.

Lemma replace_char_single_ne (c : N) (r : str) (x : N) :
  x <> c -> replace_char c r [x] = [x].
Proof.
  intros Hx. unfold replace_char. cbn [fmap list_fmap concat].
  rewrite (proj2 (N.eqb_neq x c) Hx). apply app_nil_r.
Qed.

Lemma html_escape_single (c : N) : html_escape [c] = escape_char c.
Proof.
  unfold escape_char.
  destruct (N.eqb_spec c 38) as [->|H38]; [reflexivity|].
  destruct (N.eqb_spec c 60) as [->|H60]; [reflexivity|].
  destruct (N.eqb_spec c 62) as [->|H62]; [reflexivity|].
  destruct (N.eqb_spec c 34) as [->|H34]; [reflexivity|].
  destruct (N.eqb_spec c 39) as [->|H39]; [reflexivity|].
  unfold html_escape. by rewrite !replace_char_single_ne.
Qed.

(** Escaping works character by character. *)
Lemma html_escape_cons (c : N) (s : str) :
  html_escape (c :: s) = escape_char c ++ html_escape s.
Proof.
  change (c :: s) with ([c] ++ s). by rewrite html_escape_app, html_escape_single.
Qed.

Lemma escape_char_no_markup (c x : N) :
  x ∈ escape_char c -> x <> 60%N /\ x <> 62%N /\ x <> 34%N /\ x <> 39%N.
Proof.
  unfold escape_char.
  destruct (N.eqb_spec c 38); [|destruct (N.eqb_spec c 60);
    [|destruct (N.eqb_spec c 62); [|destruct (N.eqb_spec c 34);
      [|destruct (N.eqb_spec c 39)]]]];
    vm_compute lit; rewrite ?elem_of_cons, elem_of_nil; intros Hx;
    repeat (destruct Hx as [->|Hx]; [repeat split; congruence|]); contradiction.
Qed.

(** No angle bracket and no quote survives escaping. *)
Lemma html_escape_no_markup (s : str) (x : N) :
  x ∈ html_escape s -> x <> 60%N /\ x <> 62%N /\ x <> 34%N /\ x <> 39%N.
Proof.
  induction s as [|c s IH]; [by intros ?%elem_of_nil|].
  rewrite html_escape_cons, elem_of_app. intros [Hx|Hx]; [|auto].
  by apply (escape_char_no_markup c).
Qed.

Lemma unescape_escape_char (c : N) (shown : str) :
  foldr unescape_step shown (escape_char c) = c :: shown.
Proof.
  unfold escape_char.
  destruct (N.eqb_spec c 38) as [->|H38]; [reflexivity|].
  destruct (N.eqb_spec c 60) as [->|H60]; [reflexivity|].
  destruct (N.eqb_spec c 62) as [->|H62]; [reflexivity|].
  destruct (N.eqb_spec c 34) as [->|H34]; [reflexivity|].
  destruct (N.eqb_spec c 39) as [->|H39]; [reflexivity|].
  cbn [foldr]. unfold unescape_step. by rewrite (proj2 (N.eqb_neq c 38) H38).
Qed.

(** Displaying escaped text in front of already displayed text [shown]
    prepends the raw text. *)
Lemma unescape_escape_before (s shown : str) :
  foldr unescape_step shown (html_escape s) = s ++ shown.
Proof.
  induction s as [|c s IH]; [reflexivity|].
  by rewrite html_escape_cons, foldr_app, IH, unescape_escape_char.
Qed.

(** The browser shows escaped text as the raw text. *)
Lemma html_unescape_escape (s : str) : html_unescape (html_escape s) = s.
Proof.
  unfold html_unescape. rewrite unescape_escape_before. apply app_nil_r.
Qed.

(** ** The cards of the grid *)

Lemma py_slice_upto {A} (l : list A) (j : Z) :
  0 <= j -> py_slice l 0 j = take (Z.to_nat j) l.
Proof.
  intros Hj. rewrite py_slice_nonneg by lia. by rewrite Z.sub_0_r.
Qed.

Lemma short_desc_str (d : str) :
  short_desc (PStr d)
  = Ok (html_escape (take 120 d) ++ (if 120 <? len d then lit "..." else [])).
Proof.
  unfold short_desc. cbn [getitem_upto mbind exc_bind html_escape_value py_len mret exc_ret].
  by rewrite py_slice_upto by lia.
Qed.

Lemma card_typed `{Builtins} (i title description organization_url location timeframe : str)
    (requirements : list str) (page : Z) :
  card (typed_record i title description organization_url location timeframe requirements)
       page
  = Ok (lit "<a class='vol-card' href='?id=" ++ i ++ lit "&page="
          ++ str_of_Z page ++ lit "'>"
        ++ lit "<h3>" ++ html_escape title ++ lit "</h3>"
        ++ lit "<p>"
          ++ (html_escape (take 120 description)
              ++ (if 120 <? len description then lit "..." else []))
          ++ lit "</p>"
        ++ lit "<div class='vol-meta'>" ++ html_escape location ++ [32; 8226; 32]%N
          ++ html_escape timeframe ++ lit "</div>"
        ++ lit "</a>").
Proof.
  unfold card, typed_record.
  cbn [Opportunity.id Opportunity.title Opportunity.description Opportunity.location
       Opportunity.timeframe].
  rewrite short_desc_str. reflexivity.
Qed.

(** C5: the excerpt of a description is its first 120 characters, followed
    by the marker [...] exactly when the description is longer than 120
    characters; a description of at most 120 characters is shown in full
    without marker. The script emits the excerpt escaped; what the browser
    displays is the raw text. *)
Theorem C5_excerpt (d : str) :
  exists excerpt,
    short_desc (PStr d) = Ok excerpt
    /\ excerpt
       = html_escape (take 120 d) ++ (if 120 <? len d then lit "..." else [])
    /\ html_unescape excerpt
       = if 120 <? len d then take 120 d ++ lit "..." else d.
Proof.
  eexists. split; [apply short_desc_str|]. split; [reflexivity|].
  unfold html_unescape. rewrite foldr_app, unescape_escape_before.
  destruct (Z.ltb_spec 120 (len d)) as [Hlong|Hshort].
  - reflexivity.
  - cbn [foldr]. rewrite app_nil_r. apply take_ge. unfold len in Hshort. lia.
Qed.

Example excerpt_150 :
  short_desc (PStr (replicate 150 120%N))
  = Ok (replicate 120 120%N ++ lit "...").
Proof. reflexivity. Qed.

Example excerpt_50 :
  short_desc (PStr (replicate 50 120%N)) = Ok (replicate 50 120%N).
Proof. reflexivity. Qed.

(** C6: in a card the title, the location, the timeframe and the
    description excerpt are embedded HTML-escaped; the description is cut
    at 120 characters before it is escaped. Escaped text holds no angle
    bracket and no quote, and displays as the raw text. *)
Theorem C6_card_fields_escaped `{Builtins}
    (i title description organization_url location timeframe : str)
    (requirements : list str) (page : Z) :
  card (typed_record i title description organization_url location timeframe requirements)
       page
  = Ok (lit "<a class='vol-card' href='?id=" ++ i ++ lit "&page="
          ++ str_of_Z page ++ lit "'>"
        ++ lit "<h3>" ++ html_escape title ++ lit "</h3>"
        ++ lit "<p>"
          ++ (html_escape (take 120 description)
              ++ (if 120 <? len description then lit "..." else []))
          ++ lit "</p>"
        ++ lit "<div class='vol-meta'>" ++ html_escape location ++ [32; 8226; 32]%N
          ++ html_escape timeframe ++ lit "</div>"
        ++ lit "</a>")
  /\ (forall s : str,
         (forall c, c ∈ html_escape s ->
                    c <> 60%N /\ c <> 62%N /\ c <> 34%N /\ c <> 39%N)
         /\ html_unescape (html_escape s) = s).
Proof.
  split; [apply card_typed|].
  intros s. split; [apply html_escape_no_markup|apply html_unescape_escape].
Qed.

Example escape_markup :
  html_escape (lit "<b>Tom & 'Jerry'</b>")
  = lit "&lt;b&gt;Tom &amp; &#x27;Jerry&#x27;&lt;/b&gt;".
Proof. reflexivity. Qed.

(** Cutting after escaping would give something else: here the cut would
    fall inside a character reference. *)
Example cut_then_escape :
  let d := replicate 121 60%N in
  short_desc (PStr d) = Ok (html_escape (replicate 120 60%N) ++ lit "...")
  /\ take 120 (html_escape d) <> html_escape (take 120 d).
Proof. split; [reflexivity|]. vm_compute. discriminate. Qed.

(** C10: the [href] of a card holds the record's [id] and the page number
    as they are, right after [?id=]: nothing is escaped or encoded, so every
    character of the [id], quotes and angle brackets included, stands
    unchanged inside the attribute. *)
Theorem C10_href_embeds_raw_id `{Builtins}
    (i title description organization_url location timeframe : str)
    (requirements : list str) (page : Z) :
  exists rest,
    card (typed_record i title description organization_url location timeframe
            requirements) page
    = Ok (lit "<a class='vol-card' href='?id=" ++ i ++ lit "&page="
            ++ str_of_Z page ++ lit "'>" ++ rest).
Proof. rewrite card_typed. eexists. reflexivity. Qed.

Example href_with_quote_and_bracket :
  exists rest,
    @card reference_builtins
      (typed_record (lit "x'><script>") (lit "t") (lit "d") [] (lit "l") (lit "w") []) 2
    = Ok (lit "<a class='vol-card' href='?id=x'><script>&page=2'>" ++ rest).
Proof. eexists. reflexivity. Qed.

(** ** Loading the records *)

(** C7: mapping a JSON object into an [Opportunity] fails when the key
    [id] is absent ([d["id"]] raises [KeyError], the script's malformed
    record error) and otherwise yields a record that holds the value of
    each key present and the default of each optional key that is missing:
    the empty string for [title], [description], [organization_url],
    [location] and [timeframe], the empty list for [requirements]. *)
Theorem C7_from_dict (items : list (str * pyval)) :
  (dict_lookup (lit "id") items = None ->
   Opportunity.from_dict (PDict items) = Raise (KeyError (lit "id")))
  /\ (forall i, dict_lookup (lit "id") items = Some i ->
        Opportunity.from_dict (PDict items)
        = Ok (Opportunity.Build i
                (default (PStr []) (dict_lookup (lit "title") items))
                (default (PStr []) (dict_lookup (lit "description") items))
                (default (PStr []) (dict_lookup (lit "organization_url") items))
                (default (PStr []) (dict_lookup (lit "location") items))
                (default (PStr []) (dict_lookup (lit "timeframe") items))
                (default (PList []) (dict_lookup (lit "requirements") items))))
  /\ (forall k fallback, dict_lookup k items = None ->
        default fallback (dict_lookup k items) = fallback).
Proof.
  split; [|split].
  - intros Hid. unfold Opportunity.from_dict, getitem. by rewrite Hid.
  - intros i Hid. unfold Opportunity.from_dict, getitem. by rewrite Hid.
  - by intros k fallback ->.
Qed.

(** C7 at an object without [id] and at one with [id] and [location]. *)
Lemma C7_witness :
  let without_id := [(lit "title", PStr (lit "Beach cleanup"))] in
  let with_id := [(lit "id", PStr (lit "op-1")); (lit "location", PStr (lit "Pier 3"))] in
  (dict_lookup (lit "id") without_id = None
   /\ Opportunity.from_dict (PDict without_id) = Raise (KeyError (lit "id")))
  /\ (dict_lookup (lit "id") with_id = Some (PStr (lit "op-1"))
      /\ Opportunity.from_dict (PDict with_id)
         = Ok (typed_record (lit "op-1") [] [] [] (lit "Pier 3") [] [])).
Proof.
  intros without_id with_id. split.
  - assert (Hid : dict_lookup (lit "id") without_id = None) by reflexivity.
    split; [exact Hid|]. exact (proj1 (C7_from_dict without_id) Hid).
  - assert (Hid : dict_lookup (lit "id") with_id = Some (PStr (lit "op-1")))
      by reflexivity.
    split; [exact Hid|]. exact (proj1 (proj2 (C7_from_dict with_id)) _ Hid).
Defined.

Example from_dict_not_an_object :
  Opportunity.from_dict (PList []) = Raise TypeError
  /\ Opportunity.from_dict (PStr (lit "id")) = Raise TypeError
  /\ Opportunity.from_dict PNone = Raise TypeError.
Proof. repeat split. Qed.

Example from_dict_null_is_kept :
  Opportunity.from_dict (PDict [(lit "id", PStr (lit "a")); (lit "title", PNone)])
  = Ok (Opportunity.Build (PStr (lit "a")) PNone (PStr []) (PStr []) (PStr []) (PStr [])
          (PList [])).
Proof. reflexivity. Qed.

(** ** The detail view and the way back *)

Lemma find_no_match (ops : list Opportunity.t) (sid : str) :
  (forall o, o ∈ ops -> Opportunity.id o <> PStr sid) ->
  find (fun o => py_eq_str (Opportunity.id o) sid) ops = None.
Proof.
  induction ops as [|o ops IH]; intros Hno; [reflexivity|].
  cbn [find]. assert (Ho : py_eq_str (Opportunity.id o) sid = false).
  { pose proof (Hno o ltac:(by left)) as Hne. unfold py_eq_str.
    destruct (Opportunity.id o); try reflexivity.
    apply bool_decide_eq_false. congruence. }
  rewrite Ho. apply IH. intros o' Ho'. apply Hno. by right.
Qed.

(** C8 (as amended): when the [id] parameter is a non-empty string that is
    the [id] of no loaded record, the run shows the not-found message and
    the back button and ends without an exception; a click on the button
    replaces the query parameters by [page=<p>] alone, with [p] in
    [1, total_pages], and asks for a rerun. *)
Theorem C8_unknown_id `{Builtins} (ops : list Opportunity.t) (q : params)
    (clicked : bool) (tp : Z) (sid : str) :
  total_pages (len ops) = Ok tp ->
  qp_get q (lit "id") None = Some sid ->
  sid <> [] ->
  (forall o, o ∈ ops -> Opportunity.id o <> PStr sid) ->
  exists p,
    1 <= p <= tp
    /\ main ops clicked (start q)
       = (if clicked then Stopped RerunException else Done (),
          State (page_heading
                   ++ [Error not_found_message; Button (lit "Back to list")])
                (if clicked then [(lit "page", str_of_Z p)] else q)).
Proof.
  intros Htp Hid Hne Hno.
  destruct (main_run ops clicked q tp Htp) as (page & _ & ->).
  exists (current_page tp page).
  split; [apply current_page_bounds; by apply (total_pages_ge_1 (len ops))|].
  rewrite Hid. destruct sid as [|c sid]; [done|].
  by rewrite detail_view_not_found by (by apply find_no_match).
Qed.

(** C8 at the query [id=zz&page=5] over one record, with a click on the
    back button. *)
Lemma C8_witness :
  let ops := [typed_record (lit "a") (lit "t") (lit "d") [] [] [] []] in
  let q := [(lit "id", lit "zz"); (lit "page", lit "5")] in
  (total_pages (len ops) = Ok 1
   /\ qp_get q (lit "id") None = Some (lit "zz")
   /\ lit "zz" <> []
   /\ (forall o, o ∈ ops -> Opportunity.id o <> PStr (lit "zz")))
  /\ exists p,
       1 <= p <= 1
       /\ @main reference_builtins ops true (start q)
          = (Stopped RerunException,
             State (page_heading
                      ++ [Error not_found_message; Button (lit "Back to list")])
                   [(lit "page", str_of_Z p)]).
Proof.
  intros ops q.
  assert (Htp : total_pages (len ops) = Ok 1) by reflexivity.
  assert (Hid : qp_get q (lit "id") None = Some (lit "zz")) by reflexivity.
  assert (Hne : lit "zz" <> []) by (vm_compute; discriminate).
  assert (Hno : forall o, o ∈ ops -> Opportunity.id o <> PStr (lit "zz")).
  { intros o Ho. apply list_elem_of_singleton in Ho. subst o. vm_compute. discriminate. }
  split; [by repeat split|].
  exact (@C8_unknown_id reference_builtins ops q true 1 (lit "zz") Htp Hid Hne Hno).
Defined.

(** C8 as stated fails for an [id] parameter that is present but empty
    ([?id=]): it is the [id] of no record, yet [if selected_id:] is false
    and the run shows the grid, without any not-found message. *)
Lemma C8_counterexample :
  let ops := [typed_record (lit "a") (lit "t") (lit "d") [] [] [] []] in
  let q := [(lit "id", [])] in
  values q (lit "id") = [[]]
  /\ (forall o, o ∈ ops -> Opportunity.id o <> PStr [])
  /\ ~ (Error not_found_message ∈ ui (@main reference_builtins ops false (start q)).2).
Proof.
  intros ops q. split; [reflexivity|]. split.
  - intros o Ho. apply list_elem_of_singleton in Ho. subst o. vm_compute. discriminate.
  - intros Hin.
    assert (Htp : total_pages (len ops) = Ok 1) by reflexivity.
    destruct (@error_in_main_run reference_builtins ops q false 1 _ Htp Hin) as [_ Hid].
    vm_compute in Hid. discriminate.
Qed.

(** C9 fails on the code for a record whose [id] holds an ampersand or a
    single quote. For [id = "a&b"] on page 1 the card's link target is
    [?id=a&b&page=1], which reads as [id=a], [b=], [page=1]; for
    [id = "o'brien"] the quote closes the attribute and the target is
    [?id=o]. In both cases following the link does not set [id] to the
    record's [id], and the run shows the not-found message where the
    record's details were to appear. *)
Theorem C9_card_link_loses_id :
  let x := typed_record (lit "a&b") (lit "Food bank") (lit "Sort donations")
             (lit "https://example.org") (lit "Hall 2") (lit "Saturdays") [] in
  let y := typed_record (lit "o'brien") (lit "Shelter") (lit "Walk dogs")
             (lit "https://example.org") (lit "Yard") (lit "Sundays") [] in
  let not_found q :=
    (Done (),
     State (page_heading ++ [Error not_found_message; Button (lit "Back to list")]) q) in
  (exists markup,
      @card reference_builtins x 1 = Ok markup
      /\ card_href markup = lit "?id=a&b&page=1"
      /\ parse_qs (lit "id=a&b&page=1")
         = [(lit "id", lit "a"); (lit "b", []); (lit "page", lit "1")]
      /\ @main reference_builtins [x; y] false (start (parse_qs (lit "id=a&b&page=1")))
         = not_found (parse_qs (lit "id=a&b&page=1")))
  /\ (exists markup,
        @card reference_builtins y 1 = Ok markup
        /\ card_href markup = lit "?id=o"
        /\ parse_qs (lit "id=o") = [(lit "id", lit "o")]
        /\ @main reference_builtins [x; y] false (start (parse_qs (lit "id=o")))
           = not_found (parse_qs (lit "id=o"))).
Proof.
  intros x y not_found. split; eexists; (split; [reflexivity|]); repeat split.
Qed.

(** ** Following a card's link and coming back

    The part of the round trip that holds: for an [id] made of plain
    characters the link target reads back as [id] and [page]; a click on
    the back button leaves [page=<current page>] alone in the URL; and the
    run that follows shows the grid of that page. *)

Lemma lit_String (a : ascii) (s : string) : lit (String a s) = N_of_ascii a :: lit s.
Proof. reflexivity. Qed.

Lemma string_of_uint_digits (d : Decimal.uint) (c : N) :
  c ∈ lit (NilEmpty.string_of_uint d) -> (48 <= c <= 57)%N.
Proof.
  induction d as [|d IH|d IH|d IH|d IH|d IH|d IH|d IH|d IH|d IH|d IH];
    cbn [NilEmpty.string_of_uint];
    [by intros ?%elem_of_nil|..];
    rewrite lit_String, elem_of_cons; (intros [->|Hc]; [vm_compute; split; discriminate|auto]).
Qed.

Lemma string_of_uint_nilzero_digits (d : Decimal.uint) (c : N) :
  c ∈ lit (NilZero.string_of_uint d) -> (48 <= c <= 57)%N.
Proof.
  destruct d; try apply string_of_uint_digits.
  cbn [NilZero.string_of_uint]. rewrite lit_String, elem_of_cons.
  intros [->|Hc]; [vm_compute; split; discriminate|by apply elem_of_nil in Hc].
Qed.

Lemma str_of_Z_chars (n : Z) (c : N) :
  c ∈ str_of_Z n -> c = 45%N \/ (48 <= c <= 57)%N.
Proof.
  unfold str_of_Z, NilZero.string_of_int.
  destruct (Z.to_int n) as [d|d].
  - intros Hc. right. by apply (string_of_uint_nilzero_digits d).
  - rewrite lit_String, elem_of_cons. intros [->|Hc]; [by left|right].
    by apply (string_of_uint_nilzero_digits d).
Qed.

Lemma split_char_no_sep (sep : N) (s : str) :
  (forall c, c ∈ s -> c <> sep) -> split_char sep s = [s].
Proof.
  induction s as [|x s IH]; intros Hs; [reflexivity|].
  cbn [split_char]. rewrite (proj2 (N.eqb_neq x sep)) by (apply Hs; by left).
  rewrite IH; [reflexivity|]. intros c Hc. apply Hs. by right.
Qed.

Lemma split_char_at_sep (sep : N) (a b : str) :
  (forall c, c ∈ a -> c <> sep) ->
  split_char sep (a ++ sep :: b) = a :: split_char sep b.
Proof.
  induction a as [|x a IH]; intros Ha.
  - rewrite app_nil_l. cbn [split_char]. by rewrite N.eqb_refl.
  - rewrite <- app_comm_cons. cbn [split_char].
    rewrite (proj2 (N.eqb_neq x sep)) by (apply Ha; by left).
    rewrite IH; [reflexivity|]. intros c Hc. apply Ha. by right.
Qed.

Lemma not_elem_by_compute (c : N) (l : str) : bool_decide (c ∈ l) = false -> c ∉ l.
Proof. apply bool_decide_eq_false. Qed.

Lemma url_plain_not_reserved (c : N) :
  url_plain c = true -> c <> 38%N /\ c <> 61%N.
Proof. intros Hc; split; intros ->; vm_compute in Hc; discriminate. Qed.

Lemma parse_qs_card_link (i : str) (p : Z) :
  i <> [] -> (forall c, c ∈ i -> url_plain c = true) ->
  parse_qs (lit "id=" ++ i ++ lit "&page=" ++ str_of_Z p)
  = [(lit "id", i); (lit "page", str_of_Z p)].
Proof.
  intros Hne Hplain. unfold parse_qs.
  replace (lit "id=" ++ i ++ lit "&page=" ++ str_of_Z p)
    with ((lit "id=" ++ i) ++ 38%N :: (lit "page=" ++ str_of_Z p))
    by (rewrite <- (assoc_L (++)); reflexivity).
  rewrite split_char_at_sep.
  2:{ intros c [Hc|Hc]%elem_of_app.
      - intros ->. revert Hc. apply not_elem_by_compute. by vm_compute.
      - by apply url_plain_not_reserved, Hplain. }
  rewrite split_char_no_sep.
  2:{ intros c [Hc|Hc]%elem_of_app.
      - intros ->. revert Hc. apply not_elem_by_compute. by vm_compute.
      - apply str_of_Z_chars in Hc. intros ->. destruct Hc as [Hc|[Hc _]]; [done|].
        by vm_compute in Hc. }
  assert (Hid : lit "id=" ++ i <> []) by (vm_compute; discriminate).
  assert (Hpage : lit "page=" ++ str_of_Z p <> []) by (vm_compute lit; discriminate).
  rewrite !filter_cons, filter_nil, !decide_True by assumption.
  reflexivity.
Qed.

Lemma quoted_value_before_quote (a b : str) :
  (forall c, c ∈ a -> c <> 39%N) -> quoted_value (a ++ 39%N :: b) = a.
Proof.
  induction a as [|x a IH]; intros Ha.
  - reflexivity.
  - rewrite <- app_comm_cons. cbn [quoted_value].
    rewrite (proj2 (N.eqb_neq x 39)) by (apply Ha; by left).
    f_equal. apply IH. intros c Hc. apply Ha. by right.
Qed.

(** For a plain [id] the link target of the card is its query, as built. *)
Lemma card_href_plain `{Builtins}
    (i title description organization_url location timeframe : str)
    (requirements : list str) (p : Z) :
  let x := typed_record i title description organization_url location timeframe
             requirements in
  (forall c, c ∈ i -> url_plain c = true) ->
  exists markup, card x p = Ok markup /\ card_href markup = lit "?" ++ card_query x p.
Proof.
  intros x Hplain. subst x. rewrite card_typed. eexists. split; [reflexivity|].
  unfold card_href, card_query, typed_record. cbn [Opportunity.id format_value].
  change (lit "<a class='vol-card' href='?id=")
    with (lit "<a class='vol-card' href='" ++ lit "?id=").
  rewrite <- (List.app_assoc (lit "<a class='vol-card' href='") (lit "?id=")).
  rewrite drop_app_length.
  change (lit "?" ++ lit "id=" ++ i ++ lit "&page=" ++ str_of_Z p)
    with (lit "?id=" ++ i ++ lit "&page=" ++ str_of_Z p).
  change (lit "'>") with (39%N :: lit ">").
  rewrite <- app_comm_cons. rewrite !(assoc_L (++) _ _ (_ :: _)).
  rewrite quoted_value_before_quote; [reflexivity|].
  intros c Hc. rewrite !elem_of_app in Hc. destruct Hc as [Hc|[Hc|[Hc|Hc]]].
  - intros ->. revert Hc. apply not_elem_by_compute. by vm_compute.
  - intros ->. apply Hplain in Hc. by vm_compute in Hc.
  - intros ->. revert Hc. apply not_elem_by_compute. by vm_compute.
  - apply str_of_Z_chars in Hc. intros ->. destruct Hc as [Hc|[Hc _]]; [done|].
    by vm_compute in Hc.
Qed.

Lemma current_page_fixed (tp p : Z) : 1 <= p <= tp -> current_page tp p = p.
Proof. unfold current_page. lia. Qed.

(** After a click on the back button the URL holds [page=<p>] alone; the
    next run, for a page number [p] that [int] reads back, shows the grid
    of page [p]. *)
Lemma grid_after_back `{Builtins} (ops : list Opportunity.t) (tp p : Z) :
  total_pages (len ops) = Ok tp ->
  1 <= p <= tp ->
  py_int (str_of_Z p) = Ok p ->
  main ops false (start [(lit "page", str_of_Z p)])
  = grid_view ops tp p (State page_heading [(lit "page", str_of_Z p)]).
Proof.
  intros Htp Hp Hint.
  destruct (main_run ops false [(lit "page", str_of_Z p)] tp Htp) as (page & Hpage & ->).
  assert (Hq : qp_get [(lit "page", str_of_Z p)] (lit "page") None = Some (str_of_Z p))
    by reflexivity.
  assert (Hsel : qp_get [(lit "page", str_of_Z p)] (lit "id") None = None)
    by reflexivity.
  rewrite Hq, parse_page_total, Hint in Hpage. injection Hpage as <-.
  by rewrite Hsel, current_page_fixed.
Qed.

(** The round trip for a record with a plain, non-empty [id] that is the
    first record with that [id]: the link target of its card on page [p]
    is [?id=<id>&page=<p>] and reads back as [id] and [page]; the run for
    it shows the record's details; a click on the back button leaves
    [page=<p>] alone in the URL; and the run after that shows the grid of
    page [p] again. *)
Lemma round_trip_plain_id `{Builtins} (ops : list Opportunity.t) (tp p : Z)
    (i title description organization_url location timeframe : str)
    (requirements : list str) :
  let x := typed_record i title description organization_url location timeframe
             requirements in
  let shown :=
    page_heading ++ detail_widgets x
      ++ ((fun req => Write (lit "- " ++ req)) <$> requirements)
      ++ [Button (lit "Back to list")] in
  total_pages (len ops) = Ok tp ->
  1 <= p <= tp ->
  find (fun o => py_eq_str (Opportunity.id o) i) ops = Some x ->
  i <> [] ->
  (forall c, c ∈ i -> url_plain c = true) ->
  py_int (str_of_Z p) = Ok p ->
  (exists markup, card x p = Ok markup /\ card_href markup = lit "?" ++ card_query x p)
  /\ parse_qs (card_query x p) = [(lit "id", i); (lit "page", str_of_Z p)]
  /\ main ops false (start (parse_qs (card_query x p)))
     = (Done (), State shown (parse_qs (card_query x p)))
  /\ main ops true (start (parse_qs (card_query x p)))
     = (Stopped RerunException, State shown [(lit "page", str_of_Z p)])
  /\ main ops false (start [(lit "page", str_of_Z p)])
     = grid_view ops tp p (State page_heading [(lit "page", str_of_Z p)]).
Proof.
  intros x shown Htp Hp Hfind Hne Hplain Hint.
  assert (Hq : parse_qs (card_query x p) = [(lit "id", i); (lit "page", str_of_Z p)])
    by (by apply parse_qs_card_link).
  split; [by apply card_href_plain|].
  split; [exact Hq|]. rewrite Hq.
  assert (Hrun : forall clicked,
             main ops clicked (start [(lit "id", i); (lit "page", str_of_Z p)])
             = (if clicked then Stopped RerunException else Done (),
                State shown (if clicked then [(lit "page", str_of_Z p)]
                             else [(lit "id", i); (lit "page", str_of_Z p)]))).
  { intros clicked.
    destruct (main_run ops clicked [(lit "id", i); (lit "page", str_of_Z p)] tp Htp)
      as (page & Hpage & ->).
    assert (Hpg : qp_get [(lit "id", i); (lit "page", str_of_Z p)] (lit "page") None
                  = Some (str_of_Z p)) by reflexivity.
    assert (Hid : qp_get [(lit "id", i); (lit "page", str_of_Z p)] (lit "id") None
                  = Some i) by reflexivity.
    rewrite Hpg, parse_page_total, Hint in Hpage. injection Hpage as <-.
    rewrite Hid. destruct i as [|c i]; [done|].
    rewrite (detail_view_found _ _ _ _ _ x Hfind), current_page_fixed by assumption.
    cbn [typed_record Opportunity.requirements py_iter ui query_params x].
    subst shown. rewrite <- list_fmap_compose. reflexivity. }
  split; [apply (Hrun false)|]. split; [apply (Hrun true)|].
  by apply grid_after_back.
Qed.

Example round_trip_example :
  let x := typed_record (lit "op-7") (lit "Food bank") (lit "Sort donations")
             (lit "https://example.org") (lit "Hall 2") (lit "Saturdays")
             [lit "Gloves"] in
  (@main reference_builtins [x] true (start (parse_qs (@card_query reference_builtins x 1)))).1
  = Stopped RerunException
  /\ query_params
       (@main reference_builtins [x] true
          (start (parse_qs (@card_query reference_builtins x 1)))).2
     = [(lit "page", lit "1")].
Proof. split; reflexivity. Qed.

(** * Further properties of the script *)

(** ** The page count and the pages *)

(** X1: for every record count a list can have (below [2^63]) line 59
    yields a page count, and it is at least 1: the division neither
    overflows nor produces a NaN. *)
Theorem X1_total_pages_machine_size (n : Z) :
  0 <= n < 2 ^ 63 -> exists tp, total_pages n = Ok tp /\ 1 <= tp.
Proof.
  intros Hn. destruct (total_pages_defined n Hn) as [tp Htp].
  exists tp. split; [exact Htp|]. by apply (total_pages_ge_1 n).
Qed.

(** X1 at [2^62] records. *)
Lemma X1_witness :
  0 <= 2 ^ 62 < 2 ^ 63 /\ exists tp, total_pages (2 ^ 62) = Ok tp /\ 1 <= tp.
Proof.
  assert (H : 0 <= 2 ^ 62 < 2 ^ 63) by lia.
  split; [exact H|]. exact (X1_total_pages_machine_size (2 ^ 62) H).
Defined.

(** X2: correcting the page is idempotent; it leaves a page of
    [1..total_pages] as it is, sends every smaller number to 1 and every
    larger one to [total_pages]. *)
Theorem X2_current_page_stable (tp page : Z) :
  1 <= tp ->
  current_page tp (current_page tp page) = current_page tp page
  /\ (1 <= page <= tp -> current_page tp page = page)
  /\ (page < 1 -> current_page tp page = 1)
  /\ (tp < page -> current_page tp page = tp).
Proof. intros Htp. unfold current_page. lia. Qed.

(** X2 at 7 pages and the requested page 12. *)
Lemma X2_witness :
  1 <= 7
  /\ current_page 7 (current_page 7 12) = current_page 7 12
  /\ (12 < 1 \/ 7 < 12) /\ current_page 7 12 = 7.
Proof.
  assert (H : 1 <= 7) by lia.
  destruct (X2_current_page_stable 7 12 H) as (Hidem & _ & _ & Hbig).
  split; [exact H|]. split; [exact Hidem|]. split; [right; lia|].
  apply Hbig. lia.
Defined.

(** X3: a page never holds more than 9 records; page [p >= 1] holds
    [min(9, n - 9 (p - 1))] of the [n] records, and none when that is not
    positive: pages before the last are full, pages past the end are
    empty. *)
Theorem X3_page_lengths (ops : list Opportunity.t) :
  (forall p, len (page_items ops p) <= 9)
  /\ (forall p, 1 <= p ->
        len (page_items ops p) = Z.max 0 (Z.min 9 (len ops - (p - 1) * 9)))
  /\ (forall p, 1 <= p -> p * 9 <= len ops -> len (page_items ops p) = 9)
  /\ (forall p, 1 <= p -> len ops <= (p - 1) * 9 -> page_items ops p = []).
Proof.
  assert (Hform : forall p, 1 <= p ->
            len (page_items ops p) = Z.max 0 (Z.min 9 (len ops - (p - 1) * 9))).
  { intros p Hp. rewrite page_items_slice by assumption.
    unfold len. rewrite length_take, length_drop. lia. }
  split; [|split; [exact Hform|split]].
  - intros p. pose proof (py_slice_length_le ops ((p - 1) * PAGE_SIZE)) as Hle.
    unfold page_items, len, PAGE_SIZE in *. lia.
  - intros p Hp Hfull. rewrite Hform by assumption. lia.
  - intros p Hp Hpast. apply length_zero_iff_nil.
    pose proof (Hform p Hp) as Hlen. unfold len in *. lia.
Qed.

(** X3 at 20 records: page 2 is full, page 3 holds two, page 4 is empty. *)
Lemma X3_witness :
  let ops := (fun i => typed_record (str_of_Z i) [] [] [] [] [] []) <$> seqZ 1 20 in
  (1 <= 2 /\ 2 * 9 <= len ops /\ len (page_items ops 2) = 9)
  /\ (1 <= 3 /\ len (page_items ops 3) = Z.max 0 (Z.min 9 (len ops - (3 - 1) * 9)))
  /\ (1 <= 4 /\ len ops <= (4 - 1) * 9 /\ page_items ops 4 = []).
Proof.
  intros ops. destruct (X3_page_lengths ops) as (_ & Hform & Hfull & Hpast).
  assert (H2 : 1 <= 2) by lia. assert (H3 : 1 <= 3) by lia. assert (H4 : 1 <= 4) by lia.
  assert (Hf : 2 * 9 <= len ops) by (vm_compute; discriminate).
  assert (Hp : len ops <= (4 - 1) * 9) by (vm_compute; discriminate).
  split; [|split].
  - split; [exact H2|]. split; [exact Hf|]. exact (Hfull 2 H2 Hf).
  - split; [exact H3|]. exact (Hform 3 H3).
  - split; [exact H4|]. split; [exact Hp|]. exact (Hpast 4 H4 Hp).
Defined.

(** ** Reading a query parameter *)

Lemma values_no_key (q : params) (name : str) :
  (forall kv, kv ∈ q -> kv.1 <> name) -> values q name = [].
Proof.
  induction q as [|[k v] q IH]; intros Hq; [reflexivity|].
  unfold values. cbn [omap list_omap fst snd].
  rewrite bool_decide_eq_false_2 by (apply (Hq (k, v)); by left).
  apply IH. intros kv Hkv. apply Hq. by right.
Qed.

Lemma values_first_key (q1 q2 : params) (name v : str) :
  (forall kv, kv ∈ q1 -> kv.1 <> name) ->
  values (q1 ++ (name, v) :: q2) name = v :: values q2 name.
Proof.
  induction q1 as [|[k w] q1 IH]; intros Hq.
  - rewrite app_nil_l. unfold values. cbn [omap list_omap fst snd].
    by rewrite bool_decide_eq_true_2.
  - rewrite <- app_comm_cons. unfold values. cbn [omap list_omap fst snd].
    rewrite bool_decide_eq_false_2 by (apply (Hq (k, w)); by left).
    apply IH. intros kv Hkv. apply Hq. by right.
Qed.

Lemma qp_get_cases (q : params) (name : str) (fallback : option str) :
  qp_get q name fallback
  = match values q name with
    | v :: _ => Some v
    | [] => fallback
    end.
Proof.
  unfold qp_get, get, get_all. cbn [mbind exc_bind mret exc_ret try_except].
  destruct (values q name); reflexivity.
Qed.

(** X4: [qp_get] returns the default exactly when the URL has no
    parameter of that name; otherwise it returns the value of the first
    occurrence, also when that value is the empty string (the default does
    not replace it). *)
Theorem X4_qp_get_default (q : params) (name : str) (fallback : option str) :
  ((forall kv, kv ∈ q -> kv.1 <> name) -> qp_get q name fallback = fallback)
  /\ (forall q1 v q2,
        q = q1 ++ (name, v) :: q2 ->
        (forall kv, kv ∈ q1 -> kv.1 <> name) ->
        qp_get q name fallback = Some v).
Proof.
  split.
  - intros Hq. by rewrite qp_get_cases, values_no_key.
  - intros q1 v q2 -> Hq1. by rewrite qp_get_cases, values_first_key.
Qed.

(** X4 at the query [x=1&id=&id=b] with default [zz]. *)
Lemma X4_witness :
  let q := [(lit "x", lit "1"); (lit "id", []); (lit "id", lit "b")] in
  ((forall kv, kv ∈ q -> kv.1 <> lit "page")
   /\ qp_get q (lit "page") (Some (lit "zz")) = Some (lit "zz"))
  /\ (q = [(lit "x", lit "1")] ++ (lit "id", []) :: [(lit "id", lit "b")]
      /\ (forall kv, kv ∈ [(lit "x", lit "1")] -> kv.1 <> lit "id")
      /\ qp_get q (lit "id") (Some (lit "zz")) = Some []).
Proof.
  intros q.
  assert (Hno : forall kv, kv ∈ q -> kv.1 <> lit "page").
  { intros kv Hkv. unfold q in Hkv. rewrite !elem_of_cons, elem_of_nil in Hkv.
    destruct Hkv as [->|[->|[->|[]]]]; vm_compute; discriminate. }
  assert (Hq1 : forall kv, kv ∈ [(lit "x", lit "1")] -> kv.1 <> lit "id").
  { intros kv Hkv. apply list_elem_of_singleton in Hkv. subst kv. vm_compute. discriminate. }
  split.
  - split; [exact Hno|]. exact (proj1 (X4_qp_get_default q (lit "page") (Some (lit "zz"))) Hno).
  - split; [reflexivity|]. split; [exact Hq1|].
    exact (proj2 (X4_qp_get_default q (lit "id") (Some (lit "zz")))
             [(lit "x", lit "1")] [] [(lit "id", lit "b")] eq_refl Hq1).
Defined.

(** ** Loading the data file and the run as a whole *)

Lemma main_run_from `{Builtins} (ops : list Opportunity.t) (clicked : bool)
    (ws : list widget) (q : params) (tp : Z) :
  total_pages (len ops) = Ok tp ->
  exists page,
    parse_page (qp_get q (lit "page") None) = Ok page
    /\ main ops clicked (State ws q)
       = match qp_get q (lit "id") None with
         | Some (c :: sid) =>
             detail_view ops (c :: sid) (current_page tp page) clicked
               (State (ws ++ page_heading) q)
         | _ => grid_view ops tp (current_page tp page) (State (ws ++ page_heading) q)
         end.
Proof.
  intros Htp. rewrite parse_page_total. eexists. split; [reflexivity|].
  unfold main. unfold mbind at 1, script_bind. rewrite Htp.
  cbn [lift]. unfold mbind at 1, script_bind. cbn [st_query_params query_params].
  unfold mbind at 1, script_bind. rewrite parse_page_total. cbn [lift].
  unfold mbind, script_bind, st_title, st_write, emit. cbn [ui query_params].
  rewrite <- (assoc_L (++) ws). change ([Title (lit "Volunteer Hub")] ++ _) with page_heading.
  destruct (qp_get q (lit "id") None) as [[|c sid]|]; reflexivity.
Qed.

Lemma from_dict_with_id (items : list (str * pyval)) (i : pyval) :
  dict_lookup (lit "id") items = Some i ->
  exists o, Opportunity.from_dict (PDict items) = Ok o /\ Opportunity.id o = i.
Proof.
  intros Hi. unfold Opportunity.from_dict, getitem. rewrite Hi.
  eexists. split; reflexivity.
Qed.

Lemma mapM_from_dict_all (dicts : list (list (str * pyval))) :
  (forall items, items ∈ dicts -> is_Some (dict_lookup (lit "id") items)) ->
  exists recs,
    mapM Opportunity.from_dict (PDict <$> dicts) = Ok recs
    /\ Forall2 (fun items o => Opportunity.from_dict (PDict items) = Ok o) dicts recs.
Proof.
  induction dicts as [|items dicts IH]; intros Hid.
  - exists []. split; [reflexivity|constructor].
  - destruct IH as (recs & Hrecs & Hall); [intros ? ?; apply Hid; by right|].
    destruct (Hid items ltac:(by left)) as [i Hi].
    destruct (from_dict_with_id items i Hi) as (o & Hfrom & _).
    exists (o :: recs). cbn [fmap list_fmap mapM]. rewrite Hfrom.
    cbn [mbind exc_bind]. cbn [fmap list_fmap] in Hrecs. rewrite Hrecs.
    split; [reflexivity|]. by constructor.
Qed.

Lemma mapM_stops_at_failure {A B} (f : A -> exc B) (l1 l2 : list A) (x : A)
    (k : list B) (e : exn) :
  mapM f l1 = Ok k -> f x = Raise e -> mapM f (l1 ++ x :: l2) = Raise e.
Proof.
  revert k. induction l1 as [|a l1 IH]; intros k Hk Hx.
  - rewrite app_nil_l. cbn [mapM]. by rewrite Hx.
  - rewrite <- app_comm_cons. cbn [mapM] in Hk |- *.
    destruct (f a) as [b|e']; [|discriminate]. cbn [mbind exc_bind] in Hk |- *.
    destruct (mapM f l1) as [k'|e'] eqn:Hl1; [|discriminate].
    by rewrite (IH k' eq_refl Hx).
Qed.

(** X5: without the data file the run does not stop: it shows the error
    with the path, then, when no record is selected, the heading, an empty
    grid and a footer with the single page 1 marked active, whatever page
    the URL asks for. *)
Theorem X5_missing_file_degrades `{Builtins} (path : str) (q : params) (clicked : bool) :
  truthy (qp_get q (lit "id") None) = false ->
  app path NoFile clicked (start q)
  = (Done (),
     State ([PageConfig (lit "Volunteer Hub") (lit "wide");
             Error (lit "Data file not found: " ++ path)]
            ++ page_heading
            ++ [Markdown (PStr (css ++ lit "<div class='vol-grid'>" ++ lit "</div>")) true;
                Markdown
                  (PStr (lit "<div class='pagination'>"
                         ++ lit "<a class='page-num active' href='?page=1'>1</a>"
                         ++ lit "</div>")) true])
           q).
Proof.
  intros Hid. unfold app, load_opportunities, start.
  unfold mbind, script_bind, st_set_page_config, st_error, emit.
  cbn [ui query_params mret script_ret app].
  change (([] ++ [PageConfig (lit "Volunteer Hub") (lit "wide")])
          ++ [Error (lit "Data file not found: " ++ path)])
    with [PageConfig (lit "Volunteer Hub") (lit "wide");
          Error (lit "Data file not found: " ++ path)].
  destruct (main_run_from [] clicked
              [PageConfig (lit "Volunteer Hub") (lit "wide");
               Error (lit "Data file not found: " ++ path)] q 1 eq_refl)
    as (page & _ & ->).
  assert (Hcp : current_page 1 page = 1) by (unfold current_page; lia).
  rewrite Hcp.
  assert (Hgrid : forall s, grid_view [] 1 1 s
            = (Done (),
               State (ui s
                      ++ [Markdown (PStr (css ++ lit "<div class='vol-grid'>"
                                          ++ lit "</div>")) true;
                          Markdown
                            (PStr (lit "<div class='pagination'>"
                                   ++ lit "<a class='page-num active' href='?page=1'>1</a>"
                                   ++ lit "</div>")) true])
                     (query_params s))).
  { intros s. rewrite grid_view_run. reflexivity. }
  destruct (qp_get q (lit "id") None) as [[|c sid]|]; try discriminate;
    rewrite Hgrid; cbn [ui query_params]; by rewrite <- (assoc_L (++)).
Qed.

(** X5 at the query [page=4]. *)
Lemma X5_witness :
  let q := [(lit "page", lit "4")] in
  truthy (qp_get q (lit "id") None) = false
  /\ ui (@app reference_builtins (lit "/srv/opportunities.json") NoFile false (start q)).2
     = [PageConfig (lit "Volunteer Hub") (lit "wide");
        Error (lit "Data file not found: /srv/opportunities.json")]
       ++ page_heading
       ++ [Markdown (PStr (css ++ lit "<div class='vol-grid'>" ++ lit "</div>")) true;
           Markdown
             (PStr (lit "<div class='pagination'>"
                    ++ lit "<a class='page-num active' href='?page=1'>1</a>"
                    ++ lit "</div>")) true].
Proof.
  intros q. assert (Hid : truthy (qp_get q (lit "id") None) = false) by reflexivity.
  split; [exact Hid|].
  by rewrite (@X5_missing_file_degrades reference_builtins
                (lit "/srv/opportunities.json") q false Hid).
Defined.

(** X6: when [json.load] returns an array of objects that all have the
    key [id], the loader returns one record per object, in the order of
    the array, and shows nothing. *)
Theorem X6_load_keeps_order (path : str) (dicts : list (list (str * pyval))) (s : state) :
  (forall items, items ∈ dicts -> is_Some (dict_lookup (lit "id") items)) ->
  exists recs,
    load_opportunities path (Json (PList (PDict <$> dicts))) s = (Done recs, s)
    /\ length recs = length dicts
    /\ Forall2 (fun items o =>
                  Opportunity.from_dict (PDict items) = Ok o
                  /\ dict_lookup (lit "id") items = Some (Opportunity.id o))
         dicts recs.
Proof.
  intros Hid. destruct (mapM_from_dict_all dicts Hid) as (recs & Hrecs & Hall).
  exists recs. split; [|split].
  - unfold load_opportunities, mbind, script_bind. cbn [py_iter lift]. by rewrite Hrecs.
  - symmetry. exact (Forall2_length _ _ _ Hall).
  - clear Hrecs. induction Hall as [|items o dicts recs Hfrom Hall IH]; constructor.
    + split; [exact Hfrom|]. destruct (Hid items ltac:(by left)) as [i Hi].
      destruct (from_dict_with_id items i Hi) as (o' & Hfrom' & Hio).
      rewrite Hfrom in Hfrom'. injection Hfrom' as <-. by rewrite Hio.
    + apply IH. intros ? ?. apply Hid. by right.
Qed.

(** X6 at an array of two objects. *)
Lemma X6_witness :
  let dicts := [[(lit "id", PStr (lit "b")); (lit "title", PStr (lit "Second"))];
                [(lit "title", PStr (lit "First")); (lit "id", PStr (lit "a"))]] in
  (forall items, items ∈ dicts -> is_Some (dict_lookup (lit "id") items))
  /\ exists recs,
       load_opportunities [] (Json (PList (PDict <$> dicts))) (start [])
       = (Done recs, start [])
       /\ length recs = length dicts
       /\ Forall2 (fun items o =>
                     Opportunity.from_dict (PDict items) = Ok o
                     /\ dict_lookup (lit "id") items = Some (Opportunity.id o))
            dicts recs.
Proof.
  intros dicts.
  assert (Hid : forall items, items ∈ dicts -> is_Some (dict_lookup (lit "id") items)).
  { intros items Hin. unfold dicts in Hin. rewrite !elem_of_cons, elem_of_nil in Hin.
    destruct Hin as [->|[->|[]]]; eexists; reflexivity. }
  split; [exact Hid|]. exact (X6_load_keeps_order [] dicts (start []) Hid).
Defined.

(** When [open] or [json.load] raises, whatever the exception (a file that
    cannot be read, text that is not JSON, JSON nested too deep), the run
    ends with it right after the page configuration. *)
Lemma load_failure_stops_run `{Builtins} (path : str) (e : exn) (q : params)
    (clicked : bool) :
  app path (LoadRaises e) clicked (start q)
  = (Stopped (Uncaught e), State [PageConfig (lit "Volunteer Hub") (lit "wide")] q).
Proof. reflexivity. Qed.

(** X7: one element that [from_dict] rejects (an object without [id], or
    anything that is not an object) aborts the load with that exception,
    wherever it stands in the array: no record is kept, and the run ends
    right after the page configuration, before the title. *)
Theorem X7_malformed_record_aborts `{Builtins} (path : str)
    (good : list (list (str * pyval))) (bad : pyval) (rest : list pyval)
    (e : exn) (q : params) (clicked : bool) :
  (forall items, items ∈ good -> is_Some (dict_lookup (lit "id") items)) ->
  Opportunity.from_dict bad = Raise e ->
  let raw := PList ((PDict <$> good) ++ bad :: rest) in
  (forall s, load_opportunities path (Json raw) s = (Stopped (Uncaught e), s))
  /\ app path (Json raw) clicked (start q)
     = (Stopped (Uncaught e),
        State [PageConfig (lit "Volunteer Hub") (lit "wide")] q).
Proof.
  intros Hid Hbad raw.
  destruct (mapM_from_dict_all good Hid) as (recs & Hrecs & _).
  assert (Hload : forall s, load_opportunities path (Json raw) s = (Stopped (Uncaught e), s)).
  { intros s. unfold load_opportunities, raw, mbind, script_bind. cbn [py_iter lift].
    by rewrite (mapM_stops_at_failure _ _ _ _ recs e Hrecs Hbad). }
  split; [exact Hload|].
  unfold app, start, mbind, script_bind, st_set_page_config, emit.
  cbn [ui query_params app]. by rewrite Hload.
Qed.

(** X7 at an array whose second object has no [id]. *)
Lemma X7_witness :
  let good := [[(lit "id", PStr (lit "a"))]] in
  let bad := PDict [(lit "title", PStr (lit "No id"))] in
  let rest := [PDict [(lit "id", PStr (lit "c"))]] in
  ((forall items, items ∈ good -> is_Some (dict_lookup (lit "id") items))
   /\ Opportunity.from_dict bad = Raise (KeyError (lit "id")))
  /\ @app reference_builtins [] (Json (PList ((PDict <$> good) ++ bad :: rest))) false
       (start [])
     = (Stopped (Uncaught (KeyError (lit "id"))),
        State [PageConfig (lit "Volunteer Hub") (lit "wide")] []).
Proof.
  intros good bad rest.
  assert (Hid : forall items, items ∈ good -> is_Some (dict_lookup (lit "id") items)).
  { intros items Hin. apply list_elem_of_singleton in Hin. subst items.
    eexists; reflexivity. }
  assert (Hbad : Opportunity.from_dict bad = Raise (KeyError (lit "id"))) by reflexivity.
  split; [by split|].
  exact (proj2 (@X7_malformed_record_aborts reference_builtins [] good bad rest
                  (KeyError (lit "id")) [] false Hid Hbad)).
Defined.

(** X8: a JSON document that is not an array never yields a record: the
    load raises [TypeError], except for the empty object and the empty
    string, which give the empty list. *)
Theorem X8_document_not_an_array (path : str) (raw : pyval) (s : state) :
  (forall l, raw <> PList l) ->
  load_opportunities path (Json raw) s
  = match raw with
    | PStr [] | PDict [] => (Done [], s)
    | _ => (Stopped (Uncaught TypeError), s)
    end.
Proof.
  intros Hraw. unfold load_opportunities, mbind, script_bind.
  destruct raw as [| | | |str|l|items]; try reflexivity.
  - destruct str; reflexivity.
  - by destruct (Hraw l).
  - destruct items; reflexivity.
Qed.

(** X8 at the document [{"id": "a"}], an object in place of an array. *)
Lemma X8_witness :
  let raw := PDict [(lit "id", PStr (lit "a"))] in
  (forall l, raw <> PList l)
  /\ load_opportunities [] (Json raw) (start []) = (Stopped (Uncaught TypeError), start []).
Proof.
  intros raw. assert (Hraw : forall l, raw <> PList l) by (intros l; discriminate).
  split; [exact Hraw|]. exact (X8_document_not_an_array [] raw (start []) Hraw).
Defined.

(** ** The detail view *)

Lemma find_first_match (before after : list Opportunity.t) (x : Opportunity.t)
    (sid : str) :
  (forall o, o ∈ before -> Opportunity.id o <> PStr sid) ->
  Opportunity.id x = PStr sid ->
  find (fun o => py_eq_str (Opportunity.id o) sid) (before ++ x :: after) = Some x.
Proof.
  intros Hbefore Hx. induction before as [|o before IH].
  - rewrite app_nil_l. cbn [find]. rewrite Hx. cbn [py_eq_str].
    by rewrite bool_decide_eq_true_2.
  - rewrite <- app_comm_cons. cbn [find].
    assert (Ho : py_eq_str (Opportunity.id o) sid = false).
    { pose proof (Hbefore o ltac:(by left)) as Hne. unfold py_eq_str.
      destruct (Opportunity.id o); try reflexivity.
      apply bool_decide_eq_false. congruence. }
    rewrite Ho. apply IH. intros o' Ho'. apply Hbefore. by right.
Qed.

Lemma find_match_origin (ops : list Opportunity.t) (sid : str) (x : Opportunity.t) :
  find (fun o => py_eq_str (Opportunity.id o) sid) ops = Some x ->
  x ∈ ops /\ Opportunity.id x = PStr sid.
Proof.
  induction ops as [|o ops IH]; [discriminate|]. cbn [find].
  destruct (py_eq_str (Opportunity.id o) sid) eqn:Ho.
  - intros [= ->]. split; [by left|]. unfold py_eq_str in Ho.
    destruct (Opportunity.id x); try discriminate.
    apply bool_decide_eq_true in Ho. by subst.
  - intros [Hin Hid]%IH. split; [by right|assumption].
Qed.

Lemma main_stops_without_page_count `{Builtins} (ops : list Opportunity.t)
    (clicked : bool) (s : state) (e : exn) :
  total_pages (len ops) = Raise e -> main ops clicked s = (Stopped (Uncaught e), s).
Proof. intros Htp. unfold main. unfold mbind at 1, script_bind. by rewrite Htp. Qed.

(** X9: with a non-empty [id] in the URL the run shows the first record,
    in file order, whose [id] is that string: its title as header, its
    description as markdown without raw HTML, the organization link,
    location and timeframe, one bullet per requirement in order, and the
    back button. Later records with the same [id] are never shown. A click
    on the button leaves the page number, within [1, total_pages], as the
    only query parameter. *)
Theorem X9_detail_first_match `{Builtins} (before after : list Opportunity.t)
    (x : Opportunity.t) (sid : str) (reqs : list pyval) (q : params)
    (clicked : bool) (tp : Z) :
  total_pages (len (before ++ x :: after)) = Ok tp ->
  qp_get q (lit "id") None = Some sid ->
  sid <> [] ->
  (forall o, o ∈ before -> Opportunity.id o <> PStr sid) ->
  Opportunity.id x = PStr sid ->
  py_iter (Opportunity.requirements x) = Ok reqs ->
  exists p,
    1 <= p <= tp
    /\ main (before ++ x :: after) clicked (start q)
       = (if clicked then Stopped RerunException else Done (),
          State (page_heading ++ detail_widgets x ++ bullets reqs
                   ++ [Button (lit "Back to list")])
                (if clicked then [(lit "page", str_of_Z p)] else q)).
Proof.
  intros Htp Hid Hne Hbefore Hx Hreqs.
  destruct (main_run _ clicked q tp Htp) as (page & _ & ->).
  exists (current_page tp page).
  split; [apply current_page_bounds, (total_pages_ge_1 _ _ Htp)|].
  rewrite Hid. destruct sid as [|c sid]; [done|].
  rewrite (detail_view_found _ _ _ _ _ x (find_first_match _ _ _ _ Hbefore Hx)).
  rewrite Hreqs. reflexivity.
Qed.

(** X9 at two records that share the id [a]: the first one is shown. *)
Lemma X9_witness :
  let first := typed_record (lit "a") (lit "First") (lit "d1") [] [] [] [lit "r1"; lit "r2"] in
  let second := typed_record (lit "a") (lit "Second") (lit "d2") [] [] [] [] in
  let other := typed_record (lit "b") (lit "Other") [] [] [] [] [] in
  let q := [(lit "id", lit "a"); (lit "page", lit "5")] in
  exists p,
    1 <= p <= 1
    /\ @main reference_builtins ([other] ++ first :: [second]) true (start q)
       = (Stopped RerunException,
          State (page_heading ++ @detail_widgets reference_builtins first
                   ++ @bullets reference_builtins [PStr (lit "r1"); PStr (lit "r2")]
                   ++ [Button (lit "Back to list")])
                [(lit "page", str_of_Z p)]).
Proof.
  intros first second other q.
  assert (Hbefore : forall o, o ∈ [other] -> Opportunity.id o <> PStr (lit "a")).
  { intros o Ho. apply list_elem_of_singleton in Ho. subst o. vm_compute. discriminate. }
  assert (Hne : lit "a" <> []) by (vm_compute; discriminate).
  exact (@X9_detail_first_match reference_builtins [other] [second] first (lit "a")
           [PStr (lit "r1"); PStr (lit "r2")] q true 1
           eq_refl eq_refl Hne Hbefore eq_refl eq_refl).
Defined.

(** X10: requirements that are not a list. A string is listed one bullet
    per character and an object one bullet per key; anything else (JSON
    [null], a number, a boolean) stops the run with [TypeError] once the
    fields above the list are shown, before any bullet and without the back
    button. *)
Theorem X10_requirements_not_a_list `{Builtins} (ops : list Opportunity.t) (sid : str)
    (cp : Z) (clicked : bool) (s : state) (x : Opportunity.t) :
  find (fun o => py_eq_str (Opportunity.id o) sid) ops = Some x ->
  (forall l, Opportunity.requirements x <> PList l) ->
  detail_view ops sid cp clicked s
  = match Opportunity.requirements x with
    | PStr r =>
        (if clicked then Stopped RerunException else Done (),
         State (ui s ++ detail_widgets x
                  ++ ((fun c => Write (lit "- " ++ [c])) <$> r)
                  ++ [Button (lit "Back to list")])
               (if clicked then [(lit "page", str_of_Z cp)] else query_params s))
    | PDict items =>
        (if clicked then Stopped RerunException else Done (),
         State (ui s ++ detail_widgets x
                  ++ ((fun kv => Write (lit "- " ++ kv.1)) <$> items)
                  ++ [Button (lit "Back to list")])
               (if clicked then [(lit "page", str_of_Z cp)] else query_params s))
    | _ => (Stopped (Uncaught TypeError), State (ui s ++ detail_widgets x) (query_params s))
    end.
Proof.
  intros Hfind Hreq. rewrite (detail_view_found _ _ _ _ _ x Hfind).
  destruct (Opportunity.requirements x) as [| | | |r|l|items]; try reflexivity.
  - cbn [py_iter]. by rewrite <- list_fmap_compose.
  - by destruct (Hreq l).
  - cbn [py_iter]. by rewrite <- list_fmap_compose.
Qed.

(** X10 at a record whose requirements are JSON [null]. *)
Lemma X10_witness :
  let x := Opportunity.Build (PStr (lit "a")) (PStr (lit "T")) (PStr (lit "d"))
             (PStr []) (PStr []) (PStr []) PNone in
  @detail_view reference_builtins [x] (lit "a") 1 false (start [])
  = (Stopped (Uncaught TypeError), State (@detail_widgets reference_builtins x) []).
Proof.
  intros x.
  assert (Hreq : forall l, Opportunity.requirements x <> PList l) by (intros l; discriminate).
  exact (@X10_requirements_not_a_list reference_builtins [x] (lit "a") 1 false (start []) x
           eq_refl Hreq).
Defined.

(** X11: a header on the page is always the title of a loaded record whose
    [id] is a string equal to the [id] parameter of the URL; a record whose
    [id] is a number in the data file is never opened. *)
Theorem X11_header_origin `{Builtins} (ops : list Opportunity.t) (q : params)
    (clicked : bool) (w : pyval) :
  Header w ∈ ui (main ops clicked (start q)).2 ->
  exists x sid,
    x ∈ ops
    /\ qp_get q (lit "id") None = Some sid
    /\ Opportunity.id x = PStr sid
    /\ Opportunity.title x = w.
Proof.
  destruct (total_pages (len ops)) as [tp|e] eqn:Htp.
  2:{ rewrite (main_stops_without_page_count _ _ _ e Htp). cbn [snd ui start].
      intros Hin. widget_cases. }
  destruct (main_run ops clicked q tp Htp) as (page & _ & ->).
  assert (Hgrid : Header w ∈
            ui (grid_view ops tp (current_page tp page) (State page_heading q)).2
            -> False).
  { rewrite grid_view_run. unfold page_heading.
    destruct (cards _ _); cbn [snd ui]; intros Hin; widget_cases. }
  destruct (qp_get q (lit "id") None) as [[|c sid]|]; try (intros []%Hgrid).
  destruct (find (fun o => py_eq_str (Opportunity.id o) (c :: sid)) ops) as [op|] eqn:Hfind.
  - destruct (find_match_origin _ _ _ Hfind) as [Hin Hid].
    rewrite (detail_view_found _ _ _ _ _ op Hfind). unfold page_heading, detail_widgets.
    destruct (py_iter (Opportunity.requirements op)); cbn [snd ui query_params];
      intros Hw; widget_cases; subst w; exists op, (c :: sid); by repeat split.
  - rewrite (detail_view_not_found _ _ _ _ _ Hfind). unfold page_heading.
    cbn [snd ui]. intros Hin. widget_cases.
Qed.

(** X11 at one record, opened by its id. *)
Lemma X11_witness :
  let x := typed_record (lit "a") (lit "Beach cleanup") [] [] [] [] [] in
  let q := [(lit "id", lit "a")] in
  exists y sid,
    y ∈ [x]
    /\ qp_get q (lit "id") None = Some sid
    /\ Opportunity.id y = PStr sid
    /\ Opportunity.title y = PStr (lit "Beach cleanup").
Proof.
  intros x q.
  assert (Hin : Header (PStr (lit "Beach cleanup"))
                ∈ ui (@main reference_builtins [x] false (start q)).2).
  { vm_compute. right. right. left. }
  exact (@X11_header_origin reference_builtins [x] q false (PStr (lit "Beach cleanup")) Hin).
Defined.

(** ** The grid *)

Lemma mapM_all_ok {A B} (f : A -> exc B) (l : list A) :
  (forall x, x ∈ l -> exists y, f x = Ok y) ->
  exists ys, mapM f l = Ok ys /\ Forall2 (fun x y => f x = Ok y) l ys.
Proof.
  induction l as [|a l IH]; intros Hall.
  - exists []. split; [reflexivity|constructor].
  - destruct (Hall a ltac:(by left)) as [b Hb].
    destruct IH as (ys & Hys & HF); [intros x Hx; apply Hall; by right|].
    exists (b :: ys). split; [|by constructor].
    cbn [mapM]. rewrite Hb. cbn [mbind exc_bind]. by rewrite Hys.
Qed.

Lemma mapM_some_fails {A B} (f : A -> exc B) (l : list A) (x : A) :
  x ∈ l -> (forall y, f x <> Ok y) -> exists e, mapM f l = Raise e.
Proof.
  intros Hx Hfail. induction l as [|a l IH]; [by apply elem_of_nil in Hx|].
  cbn [mapM]. destruct (f a) as [b|e] eqn:Ha; [|by exists e].
  cbn [mbind exc_bind]. apply elem_of_cons in Hx as [->|Hx]; [by destruct (Hfail b)|].
  destruct (IH Hx) as [e He]. exists e. by rewrite He.
Qed.

Lemma card_renderable `{Builtins} (op : Opportunity.t) (cp : Z) :
  (exists c, card op cp = Ok c) <-> renderable op = true.
Proof.
  destruct op as [i t d u l tf r]. unfold renderable, card, short_desc.
  cbn [Opportunity.title Opportunity.description Opportunity.location
       Opportunity.timeframe Opportunity.id].
  destruct d as [| | | |d|d|d];
    try (cbn; rewrite ?andb_false_r; split; [intros [c Hc]|intros Hc]; discriminate).
  destruct t as [| | | |t|t|t];
    try (cbn; split; [intros [c Hc]|intros Hc]; discriminate).
  destruct l as [| | | |l|l|l];
    try (cbn; split; [intros [c Hc]|intros Hc]; discriminate).
  destruct tf as [| | | |tf|tf|tf];
    try (cbn; split; [intros [c Hc]|intros Hc]; discriminate).
  cbn. split; [reflexivity|]. intros _. eexists. reflexivity.
Qed.

(** X12: a card can be built exactly for the records whose title,
    description, location and timeframe are all strings; the types of the
    id, the organization link and the requirements play no part, and
    neither does the page number. *)
Theorem X12_card_needs_strings `{Builtins} (op : Opportunity.t) (cp : Z) :
  (exists c, card op cp = Ok c)
  <-> (exists t d l tf,
         Opportunity.title op = PStr t /\ Opportunity.description op = PStr d
         /\ Opportunity.location op = PStr l /\ Opportunity.timeframe op = PStr tf).
Proof.
  rewrite card_renderable. unfold renderable, is_str. split.
  - destruct (Opportunity.title op) as [| | | |t| |]; try discriminate.
    destruct (Opportunity.description op) as [| | | |d| |]; try discriminate.
    destruct (Opportunity.location op) as [| | | |l| |]; try discriminate.
    destruct (Opportunity.timeframe op) as [| | | |tf| |]; try discriminate.
    intros _. by exists t, d, l, tf.
  - intros (t & d & l & tf & -> & -> & -> & ->). reflexivity.
Qed.

(** X13: the grid is all or nothing. When every record of the page shown
    has string card fields, the view adds exactly two raw-HTML blocks: the
    style sheet with one card per record of the page, in order, inside the
    grid wrapper, and the footer. When one record of the page has a card
    field that is not a string, the view stops with an exception and adds
    nothing, not even the cards before that record. Records of other pages
    play no part. *)
Theorem X13_grid_all_or_nothing `{Builtins} (ops : list Opportunity.t) (tp cp : Z)
    (s : state) :
  if forallb renderable (page_items ops cp)
  then exists cs,
         Forall2 (fun op c => card op cp = Ok c) (page_items ops cp) cs
         /\ grid_view ops tp cp s
            = (Done (),
               State (ui s
                      ++ [Markdown (PStr (css ++ lit "<div class='vol-grid'>"
                                          ++ concat cs ++ lit "</div>")) true;
                          Markdown (PStr (concat (footer tp cp))) true])
                     (query_params s))
  else exists e, grid_view ops tp cp s = (Stopped (Uncaught e), s).
Proof.
  rewrite grid_view_run. unfold cards.
  destruct (forallb renderable (page_items ops cp)) eqn:Hall.
  - destruct (mapM_all_ok (fun op => card op cp) (page_items ops cp)) as (cs & Hcs & HF).
    { intros x Hx. apply card_renderable.
      rewrite forallb_forall in Hall. apply Hall. by apply list_elem_of_In. }
    exists cs. split; [exact HF|]. rewrite Hcs. cbn [mbind exc_bind mret exc_ret].
    rewrite !concat_app. cbn [concat]. rewrite !app_nil_r.
    by rewrite <- !(assoc_L (++)).
  - assert (Hex : exists x, x ∈ page_items ops cp /\ renderable x = false).
    { clear -Hall. induction (page_items ops cp) as [|a l IH]; [discriminate|].
      cbn [forallb] in Hall. destruct (renderable a) eqn:Ha.
      - destruct (IH Hall) as (x & Hx & Hr). exists x. split; [by right|assumption].
      - exists a. split; [by left|assumption]. }
    destruct Hex as (x & Hx & Hr).
    destruct (mapM_some_fails (fun op => card op cp) _ x Hx) as [e He].
    { intros c Hc. assert (Hok : renderable x = true) by (apply (card_renderable x cp); eauto).
      congruence. }
    exists e. by rewrite He.
Qed.

(** ** The footer *)

Lemma footer_links (tp cp : Z) :
  footer tp cp
  = [lit "<div class='pagination'>"]
    ++ ((fun p => page_link p (p =? cp)) <$> seqZ 1 tp)
    ++ [lit "</div>"].
Proof. reflexivity. Qed.

Lemma inactive_links (cp m n : Z) :
  (forall p, m <= p < m + n -> p <> cp) ->
  (fun p => page_link p (p =? cp)) <$> seqZ m n
  = (fun p => page_link p false) <$> seqZ m n.
Proof.
  intros Hne. apply Forall_fmap_ext_1, Forall_forall. intros p Hp%elem_of_seqZ.
  by rewrite (proj2 (Z.eqb_neq p cp) (Hne p Hp)).
Qed.

(** X14: the footer holds one link per page from 1 to [total_pages], in
    ascending order, and when the page shown lies in that range exactly
    one of them is marked active: the one of the page shown, at its
    place. *)
Theorem X14_footer_one_active (tp cp : Z) :
  1 <= cp <= tp ->
  footer tp cp
  = [lit "<div class='pagination'>"]
    ++ ((fun p => page_link p false) <$> seqZ 1 (cp - 1))
    ++ [page_link cp true]
    ++ ((fun p => page_link p false) <$> seqZ (cp + 1) (tp - cp))
    ++ [lit "</div>"].
Proof.
  intros Hcp. rewrite footer_links.
  replace tp with ((cp - 1) + (1 + (tp - cp))) at 1 by lia.
  rewrite seqZ_app by lia. rewrite (seqZ_app _ 1) by lia.
  replace (1 + (cp - 1)) with cp by lia.
  rewrite !fmap_app.
  rewrite (inactive_links cp 1 (cp - 1)) by lia.
  rewrite (inactive_links cp (cp + 1) (tp - cp)) by lia.
  change (seqZ cp 1) with [cp]. cbn [fmap list_fmap]. rewrite Z.eqb_refl.
  by rewrite <- !(assoc_L (++)).
Qed.

(** X14 at page 2 of 4. *)
Lemma X14_witness :
  footer 4 2
  = [lit "<div class='pagination'>"]
    ++ ((fun p => page_link p false) <$> seqZ 1 (2 - 1))
    ++ [page_link 2 true]
    ++ ((fun p => page_link p false) <$> seqZ (2 + 1) (4 - 2))
    ++ [lit "</div>"].
Proof. apply X14_footer_one_active. lia. Defined.

Lemma parse_qs_page_link (p : Z) :
  parse_qs (lit "page=" ++ str_of_Z p) = [(lit "page", str_of_Z p)].
Proof.
  unfold parse_qs. rewrite split_char_no_sep.
  2:{ intros c [Hc|Hc]%elem_of_app.
      - intros ->. revert Hc. apply not_elem_by_compute. by vm_compute.
      - apply str_of_Z_chars in Hc. intros ->. destruct Hc as [Hc|[Hc _]]; [done|].
        by vm_compute in Hc. }
  assert (Hpage : lit "page=" ++ str_of_Z p <> []) by (vm_compute lit; discriminate).
  rewrite !filter_cons, filter_nil, !decide_True by assumption.
  reflexivity.
Qed.

(** X15: every page from 1 to [total_pages] has its link in the footer,
    whatever page is shown; the link's target [?page=p] is read back as the
    single parameter [page], and the run it starts shows the grid of page
    [p] with no correction, provided [int] reads the decimal numeral of [p]
    back as [p]. *)
Theorem X15_footer_link_opens_page `{Builtins} (ops : list Opportunity.t) (tp p : Z) :
  total_pages (len ops) = Ok tp ->
  1 <= p <= tp ->
  py_int (str_of_Z p) = Ok p ->
  (forall cp, page_link p (p =? cp) ∈ footer tp cp)
  /\ parse_qs (lit "page=" ++ str_of_Z p) = [(lit "page", str_of_Z p)]
  /\ main ops false (start (parse_qs (lit "page=" ++ str_of_Z p)))
     = grid_view ops tp p (State page_heading [(lit "page", str_of_Z p)]).
Proof.
  intros Htp Hp Hint. split; [|split].
  - intros cp. rewrite footer_links. apply elem_of_app. right. apply elem_of_app. left.
    apply list_elem_of_fmap. exists p. split; [reflexivity|]. apply elem_of_seqZ. lia.
  - apply parse_qs_page_link.
  - rewrite parse_qs_page_link. by apply grid_after_back.
Qed.

(** X15 at page 2 of 20 records. *)
Lemma X15_witness :
  let ops := (fun i => typed_record (str_of_Z i) [] [] [] [] [] []) <$> seqZ 1 20 in
  (forall cp, page_link 2 (2 =? cp) ∈ footer 3 cp)
  /\ parse_qs (lit "page=" ++ str_of_Z 2) = [(lit "page", str_of_Z 2)]
  /\ @main reference_builtins ops false (start (parse_qs (lit "page=" ++ str_of_Z 2)))
     = @grid_view reference_builtins ops 3 2 (State page_heading [(lit "page", str_of_Z 2)]).
Proof.
  intros ops.
  assert (Htp : total_pages (len ops) = Ok 3) by (vm_compute; reflexivity).
  assert (Hp : 1 <= 2 <= 3) by lia.
  assert (Hint : @py_int reference_builtins (str_of_Z 2) = Ok 2) by (vm_compute; reflexivity).
  exact (@X15_footer_link_opens_page reference_builtins ops 3 2 Htp Hp Hint).
Defined.

(** ** The two views *)

(** X16: the two views never mix. With a non-empty [id] in the URL the
    page holds no raw-HTML block, so neither cards nor footer; without one
    it holds no header, error, button or plain markdown. This holds for
    every record list and every way the run ends. *)
Theorem X16_views_exclusive `{Builtins} (ops : list Opportunity.t) (q : params)
    (clicked : bool) :
  let shown := ui (main ops clicked (start q)).2 in
  if truthy (qp_get q (lit "id") None)
  then Forall (fun w => raw_html w = false) shown
  else Forall (fun w => detail_only w = false) shown.
Proof.
  cbv zeta. destruct (total_pages (len ops)) as [tp|e] eqn:Htp.
  2:{ rewrite (main_stops_without_page_count _ _ _ e Htp). cbn [snd ui start].
      destruct (truthy _); constructor. }
  destruct (main_run ops clicked q tp Htp) as (page & _ & ->).
  assert (Hgrid : Forall (fun w => detail_only w = false)
            (ui (grid_view ops tp (current_page tp page) (State page_heading q)).2)).
  { rewrite grid_view_run. unfold page_heading.
    destruct (cards _ _); cbn [snd ui app]; repeat constructor. }
  destruct (qp_get q (lit "id") None) as [[|c sid]|]; cbn [truthy]; try exact Hgrid.
  destruct (find (fun o => py_eq_str (Opportunity.id o) (c :: sid)) ops) as [op|] eqn:Hfind.
  - rewrite (detail_view_found _ _ _ _ _ op Hfind). unfold page_heading, detail_widgets.
    destruct (py_iter (Opportunity.requirements op)) as [reqs|e]; cbn [snd ui query_params].
    + rewrite !Forall_app, Forall_fmap. repeat split; repeat constructor.
      apply Forall_forall. intros req _. reflexivity.
    + rewrite Forall_app. split; repeat constructor.
  - rewrite (detail_view_not_found _ _ _ _ _ Hfind). unfold page_heading.
    cbn [snd ui]. rewrite Forall_app. split; repeat constructor.
Qed.

(** ** Escaping *)

Lemma escape_char_length (c : N) : (1 <= length (escape_char c) <= 6)%nat.
Proof.
  unfold escape_char.
  repeat match goal with
         | |- context [if ?b then _ else _] => destruct b
         end; vm_compute; lia.
Qed.

Lemma html_escape_length (s : str) :
  (length s <= length (html_escape s) <= 6 * length s)%nat.
Proof.
  induction s as [|c s IH]; [vm_compute; lia|].
  rewrite html_escape_cons, length_app. pose proof (escape_char_length c).
  cbn [length]. lia.
Qed.

(** X17: [html.escape] loses nothing: two texts are escaped to the same
    markup only when they are the same text. *)
Theorem X17_html_escape_injective (s t : str) :
  html_escape s = html_escape t <-> s = t.
Proof.
  split; [|by intros ->]. intros Heq.
  by rewrite <- (html_unescape_escape s), Heq, html_unescape_escape.
Qed.

(** X18: the excerpt of a card is built for every description string, and
    its size is bounded whatever the description: at most 120 escaped
    characters of at most 6 characters each, and the three dots; and it is
    never shorter than the part of the description it shows. *)
Theorem X18_excerpt_bounded (d : str) :
  exists e,
    short_desc (PStr d) = Ok e
    /\ Z.min (len d) 120 <= len e <= 723.
Proof.
  rewrite short_desc_str. eexists. split; [reflexivity|].
  unfold len. rewrite length_app.
  pose proof (html_escape_length (take 120 d)) as Hesc. rewrite length_take in Hesc.
  assert (Hdots : (length (if (120 <? Z.of_nat (length d))%Z then lit "..." else [])
                   <= 3)%nat).
  { destruct (120 <? Z.of_nat (length d)); vm_compute; lia. }
  lia.
Qed.

(** ** The page shown *)

(** X19: unless there is no record at all, the page shown is never empty,
    whatever page the URL asks for (for a list of at most [9 * 2^50]
    records, where the page count is exact). *)
Theorem X19_shown_page_not_empty (ops : list Opportunity.t) (page : Z) :
  ops <> [] ->
  len ops <= 9 * 2 ^ 50 ->
  exists tp,
    total_pages (len ops) = Ok tp
    /\ page_items ops (current_page tp page) <> [].
Proof.
  intros Hne Hmax.
  assert (Hpos : 0 < len ops).
  { unfold len. destruct ops; [done|]. cbn [length]. lia. }
  exists (Z.max 1 (ceil_div (len ops) PAGE_SIZE)).
  split; [apply total_pages_exact; lia|].
  set (tp := Z.max 1 (ceil_div (len ops) PAGE_SIZE)).
  assert (Hlast : (tp - 1) * 9 < len ops).
  { unfold tp, ceil_div, PAGE_SIZE. Z.div_mod_to_equations. lia. }
  assert (Hcp : 1 <= current_page tp page <= tp)
    by (apply current_page_bounds; unfold tp; lia).
  rewrite page_items_slice by lia. intros Hnil.
  apply (f_equal length) in Hnil. rewrite length_take, length_drop in Hnil.
  unfold len in *. cbn [length] in Hnil. nia.
Qed.

(** X19 at 20 records and the page 99. *)
Lemma X19_witness :
  let ops := (fun i => typed_record (str_of_Z i) [] [] [] [] [] []) <$> seqZ 1 20 in
  exists tp,
    total_pages (len ops) = Ok tp
    /\ page_items ops (current_page tp 99) <> [].
Proof.
  intros ops.
  assert (Hne : ops <> []) by (vm_compute; discriminate).
  assert (Hmax : len ops <= 9 * 2 ^ 50) by (vm_compute; discriminate).
  exact (X19_shown_page_not_empty ops 99 Hne Hmax).
Defined.

(** ** A well-formed data file *)




